(** * useScrollSync: a shallow embedding of src/src/hooks/useScrollSync.ts
      and src/src/utils/debounce.ts

    Numbers of the source (intersection ratios, pixel offsets, bounding
    rectangles, the stickiness factor) are modelled as rationals [Q];
    timer deadlines are integer milliseconds [Z].  Section ids are strings. *)

From Stdlib Require Import QArith Qminmax Qabs ZArith String List Bool
  Permutation Sorted Lia Lqa.
Import ListNotations.
Open Scope Q_scope.

(** JS comparison operators on numbers. *)
Definition qltb (x y : Q) : bool := negb (Qle_bool y x).
Definition qneqb (x y : Q) : bool := negb (Qeq_bool x y).

(** ** Constants of the hook *)
Definition DEFAULT_DEBOUNCE_DELAY : Z := 150%Z.
Definition DEFAULT_STICKINESS_FACTOR : Q := 105 # 100.
Definition DEFAULT_ACTIVE_ZONE_HEIGHT : Q := 200.
(** The estimated smooth-scroll duration of [handleTabClick]. *)
Definition PROGRAMMATIC_SCROLL_SETTLE : Z := 800%Z.
(** The navigation height used when [navTabsRef] measures 0. *)
Definition DEFAULT_NAV_HEIGHT : Q := 60.

(** ** One [IntersectionObserverEntry], as the callback reads it *)
Record Entry := mkEntry {
  target_id : string;             (* entry.target.id *)
  isIntersecting : bool;          (* entry.isIntersecting *)
  intersectionRatio : Q;          (* entry.intersectionRatio *)
  boundingClientRectTop : Q;      (* entry.boundingClientRect.top *)
  intersectionRectBottom : Q      (* entry.intersectionRect?.bottom ?? 0 *)
}.

(** The objects built by [entries.map(...)] in [observerCallback]. *)
Record Processed := mkProcessed {
  p_id : string;
  p_isIntersecting : bool;
  p_intersectionRatio : Q;
  p_boundingClientRectTop : Q;
  p_visibleHeightBelowActiveLine : Q
}.

Definition process (effectiveActiveLineOffset : Q) (e : Entry) : Processed :=
  mkProcessed (target_id e) (isIntersecting e) (intersectionRatio e)
    (boundingClientRectTop e)
    (Qmax 0 (intersectionRectBottom e - effectiveActiveLineOffset)).

(** The [visibleCandidates] filter predicate. *)
Definition is_candidate (item : Processed) : bool :=
  p_isIntersecting item
  && qltb 0 (p_visibleHeightBelowActiveLine item)
  && qltb (1 # 20) (p_intersectionRatio item).

(** The comparator passed to [visibleCandidates.sort]. *)
Definition compare_candidates (line : Q) (a b : Processed) : Q :=
  if qneqb (p_intersectionRatio b) (p_intersectionRatio a) then
    p_intersectionRatio b - p_intersectionRatio a
  else if qneqb (p_visibleHeightBelowActiveLine b)
                (p_visibleHeightBelowActiveLine a) then
    p_visibleHeightBelowActiveLine b - p_visibleHeightBelowActiveLine a
  else
    Qabs (p_boundingClientRectTop a - line)
    - Qabs (p_boundingClientRectTop b - line).

(** [Array.prototype.sort] is stable (ES2019); with a consistent comparator
    every stable sort yields the same order, that of this insertion sort:
    [x] is placed before the first element that the comparator puts after it. *)
Fixpoint insert_by (cmp : Processed -> Processed -> Q) (x : Processed)
    (l : list Processed) : list Processed :=
  match l with
  | [] => [x]
  | y :: ys => if qltb 0 (cmp y x) then x :: y :: ys else y :: insert_by cmp x ys
  end.

Fixpoint sort_by_aux (cmp : Processed -> Processed -> Q)
    (acc l : list Processed) : list Processed :=
  match l with
  | [] => acc
  | x :: xs => sort_by_aux cmp (insert_by cmp x acc) xs
  end.

Definition sort_by cmp (l : list Processed) : list Processed :=
  sort_by_aux cmp [] l.

(** The sorted [visibleCandidates] array. *)
Definition visibleCandidates (line : Q) (entries : list Entry) : list Processed :=
  sort_by (compare_candidates line) (filter is_candidate (map (process line) entries)).

(** [observerCallback] after its suppression guard: the id it passes to
    [debouncedUpdateActiveTab], or [None] when it returns early. *)
Definition resolve (line stickinessFactor : Q) (currentActualActiveTabId : string)
    (entries : list Entry) : option string :=
  let processedEntries := map (process line) entries in
  match visibleCandidates line entries with
  | [] =>
      match find (fun e => String.eqb (p_id e) currentActualActiveTabId)
                 processedEntries with
      | Some cur =>
          if p_isIntersecting cur && qltb (1 # 100) (p_intersectionRatio cur)
          then None   (* current section still slightly visible: keep it *)
          else None   (* nothing visible: no fallback *)
      | None => None
      end
  | topSortedCandidate :: _ =>
      let newPotentialActiveId := p_id topSortedCandidate in
      match find (fun vc => String.eqb (p_id vc) currentActualActiveTabId)
                 (visibleCandidates line entries) with
      | Some currentActiveCandidateInList =>
          if negb (String.eqb (p_id topSortedCandidate) currentActualActiveTabId)
          then
            let scoreNew := p_intersectionRatio topSortedCandidate in
            let scoreCurrent := p_intersectionRatio currentActiveCandidateInList in
            if qltb scoreNew (scoreCurrent * stickinessFactor)
            then Some currentActualActiveTabId
            else Some newPotentialActiveId
          else Some newPotentialActiveId
      | None => Some newPotentialActiveId
      end
  end.

(** ** Configuration of one mounted hook *)
Record Config := mkConfig {
  (* [Object.keys(sections)] in order, each with [sectionRef.current.offsetTop]
     when the element is mounted *)
  sections : list (string * option Q);
  (* [scrollContainerRef.current] is non-null *)
  containerMounted : bool;
  (* [navTabsRef?.current?.offsetHeight ?? 0] *)
  navTabsHeight : Q;
  (* [options.activeLineOffset] *)
  activeLineOffset : option Q;
  stickinessFactor : Q;
  debounceDelay : Z;
  (* [initialActiveTab], with [""] for undefined *)
  initialActiveTab : string
}.

Definition sectionKeys (cfg : Config) : list string := map fst (sections cfg).

(** [sections[tabId]?.current]: the element's offsetTop, if any. *)
Definition sectionElement (cfg : Config) (tabId : string) : option Q :=
  match find (fun kv => String.eqb (fst kv) tabId) (sections cfg) with
  | Some (_, el) => el
  | None => None
  end.

(** Observable effects: console warnings, [scrollContainer.scrollTo] and
    calls of [onActiveTabChange]. *)
Inductive Output :=
| OWarn
| OScrollTo (top : Q)
| ONotify (tabId : string).

(** ** Debounce (src/src/utils/debounce.ts)
    The closure's [timeoutId] is a pending timer: its deadline and the
    arguments [func] will be called with. *)
Section Debounce.
Variable A : Type.

Definition DebounceTimer := option (Z * A).

(** A call clears any pending timer and schedules [func(...args)] after
    [waitFor] ms ([setTimeout] treats a negative delay as 0). *)
Definition debounce_call (waitFor now : Z) (timeoutId : DebounceTimer) (args : A)
  : DebounceTimer :=
  match timeoutId with
  | Some _ => Some (now + Z.max 0 waitFor, args)%Z   (* clearTimeout; setTimeout *)
  | None => Some (now + Z.max 0 waitFor, args)%Z
  end.
End Debounce.

Arguments debounce_call {A}.

(** ** Session state: React state and refs of the hook *)
Record Session := mkSession {
  activeTab : string;                           (* activeTab / activeTabRef.current *)
  isProgrammaticScroll : bool;                  (* isProgrammaticScrollRef.current *)
  programmaticScrollTimeout : option Z;         (* pending un-suppress timer: deadline *)
  debounceTimeout : DebounceTimer string;       (* timeoutId inside the debounce closure *)
  now : Z;                                      (* clock, ms *)
  observing : bool;                             (* the IntersectionObserver effect is live *)
  out : list Output                             (* effects so far *)
}.

Definition set_out (s : Session) (o : list Output) : Session :=
  mkSession (activeTab s) (isProgrammaticScroll s) (programmaticScrollTimeout s)
    (debounceTimeout s) (now s) (observing s) o.
Definition set_programmatic (s : Session) (b : bool) (t : option Z) : Session :=
  mkSession (activeTab s) b t (debounceTimeout s) (now s) (observing s) (out s).
Definition set_debounce (s : Session) (t : DebounceTimer string) : Session :=
  mkSession (activeTab s) (isProgrammaticScroll s) (programmaticScrollTimeout s)
    t (now s) (observing s) (out s).
Definition set_now (s : Session) (t : Z) : Session :=
  mkSession (activeTab s) (isProgrammaticScroll s) (programmaticScrollTimeout s)
    (debounceTimeout s) t (observing s) (out s).
Definition set_observing (s : Session) (b : bool) : Session :=
  mkSession (activeTab s) (isProgrammaticScroll s) (programmaticScrollTimeout s)
    (debounceTimeout s) (now s) b (out s).

(** [setActiveTab(v)] followed by the effect that updates [activeTabRef] and
    calls [onActiveTabChange]; React skips the render (and the effect) when
    the new state equals the old one. *)
Definition setActiveTab (s : Session) (v : string) : Session :=
  if String.eqb v (activeTab s) then s
  else mkSession v (isProgrammaticScroll s) (programmaticScrollTimeout s)
         (debounceTimeout s) (now s) (observing s) (out s ++ [ONotify v]).

(** The function wrapped by [debouncedUpdateActiveTab]. *)
Definition updateActiveTab (s : Session) (tabId : string) : Session :=
  if negb (String.eqb tabId "") && negb (String.eqb tabId (activeTab s))
  then setActiveTab s tabId
  else s.

(** [getInitialActiveTab]. *)
Definition getInitialActiveTab (cfg : Config) : string :=
  if negb (String.eqb (initialActiveTab cfg) "") then initialActiveTab cfg
  else match sectionKeys cfg with
       | k :: _ => k
       | [] => ""
       end.

(** State after mounting: the first run of the [activeTab] effect notifies
    the initial value; the observer effect starts observing when the
    container exists and there is at least one section. *)
Definition init (cfg : Config) : Session :=
  mkSession (getInitialActiveTab cfg) false None None 0%Z
    (containerMounted cfg && negb (Nat.eqb (length (sections cfg)) 0))
    [ONotify (getInitialActiveTab cfg)].

(** ** [handleTabClick] *)
(** [effectiveNavHeight] and the warnings emitted while computing it. *)
Definition clickLineOffset (cfg : Config) : Q * list Output :=
  let '(navH, warn) :=
    if Qeq_bool (navTabsHeight cfg) 0 && match activeLineOffset cfg with None => true | Some _ => false end
    then (DEFAULT_NAV_HEIGHT, [OWarn])
    else (navTabsHeight cfg, []) in
  (match activeLineOffset cfg with Some a => a | None => navH end, warn).

Definition scrollToPosition (cfg : Config) (elementTop : Q) : Q :=
  elementTop - fst (clickLineOffset cfg).

Definition handleTabClick (cfg : Config) (s : Session) (tabId : string) : Session :=
  match sectionElement cfg tabId, containerMounted cfg with
  | Some elementTop, true =>
      let warn := snd (clickLineOffset cfg) in
      (* clearTimeout(pending); isProgrammaticScrollRef.current = true;
         scrollTo; setTimeout(..., 800) *)
      let s1 := set_programmatic s true (Some (now s + PROGRAMMATIC_SCROLL_SETTLE)%Z) in
      let s2 := set_out s1 (out s1 ++ warn ++ [OScrollTo (scrollToPosition cfg elementTop)]) in
      (* setActiveTab(tabId): the notification runs in the effect after render *)
      setActiveTab s2 tabId
  | _, _ => s
  end.

(** ** The IntersectionObserver effect *)
(** [effectiveActiveLineOffset] of the observer effect. *)
Definition effectiveActiveLineOffset (cfg : Config) : Q :=
  match activeLineOffset cfg with
  | Some a => a
  | None =>
      (if Qeq_bool (navTabsHeight cfg) 0 then DEFAULT_NAV_HEIGHT
       else navTabsHeight cfg) + 5
  end.

(** [debouncedUpdateActiveTab(tabId)]: the debounced [updateActiveTab]. *)
Definition debouncedUpdateActiveTab (cfg : Config) (s : Session) (tabId : string) : Session :=
  set_debounce s (debounce_call (debounceDelay cfg) (now s) (debounceTimeout s) tabId).

(** [observerCallback]. *)
Definition observerCallback (cfg : Config) (s : Session) (entries : list Entry) : Session :=
  if isProgrammaticScroll s then s
  else match resolve (effectiveActiveLineOffset cfg) (stickinessFactor cfg)
                     (activeTab s) entries with
       | None => s
       | Some newPotentialActiveId => debouncedUpdateActiveTab cfg s newPotentialActiveId
       end.

(** The effect's cleanup: unobserve every element and clear the pending
    programmatic-scroll timeout. *)
Definition cleanup (s : Session) : Session :=
  set_programmatic (set_observing s false) (isProgrammaticScroll s) None.

(** ** Time: firing the timers due by [now + d]
    The two timers write disjoint parts of the state, so their relative order
    does not matter. *)
Definition advance (s : Session) (d : Z) : Session :=
  let t := (now s + d)%Z in
  let s1 := match programmaticScrollTimeout s with
            | Some u => if (u <=? t)%Z then set_programmatic s false None else s
            | None => s
            end in
  let s2 := match debounceTimeout s1 with
            | Some (u, tabId) =>
                if (u <=? t)%Z then updateActiveTab (set_debounce s1 None) tabId else s1
            | None => s1
            end in
  set_now s2 t.

Inductive Event :=
| EClick (tabId : string)
| ETick (entries : list Entry)
| EWait (d : N)
| ETeardown.

Definition step (cfg : Config) (s : Session) (e : Event) : Session :=
  match e with
  | EClick tabId => handleTabClick cfg s tabId
  | ETick entries => if observing s then observerCallback cfg s entries else s
  | EWait d => advance s (Z.of_N d)
  | ETeardown => cleanup s
  end.

Fixpoint run (cfg : Config) (s : Session) (evs : list Event) : Session :=
  match evs with
  | [] => s
  | e :: evs' => run cfg (step cfg s e) evs'
  end.

(** ** The hook inside its host component
    [step] keeps the props of one render.  Here the host re-renders with new
    props, which re-runs the effects whose dependencies changed:
    - the [activeTab] effect (lines 65-70) on a new [onActiveTabChange];
    - the reset effect (lines 73-75) when [getInitialActiveTab] changes,
      i.e. on a new [sections] object or a new [initialActiveTab];
    - the IntersectionObserver effect (lines 140-310) on a new [sections]
      object, [activeLineOffset] or [stickinessFactor], or a new value of a
      dependency the session does not depend on ([observerThreshold],
      [activeZoneHeight]): its cleanup runs first, then its body.
    The observer callback keeps the props of the render whose effect
    created it; the debounced function is the one of the first render
    ([useRef(debounce(..., debounceDelay)).current]), with its delay. *)

(** [p] with another debounce delay. *)
Definition with_delay (p : Config) (d : Z) : Config :=
  mkConfig (sections p) (containerMounted p) (navTabsHeight p) (activeLineOffset p)
    (stickinessFactor p) d (initialActiveTab p).

(** Dependency comparison of [activeLineOffset] ([Object.is] on numbers). *)
Definition optQ_eqb (a b : option Q) : bool :=
  match a, b with
  | Some x, Some y => Qeq_bool x y
  | None, None => true
  | _, _ => false
  end.

Record Host := mkHost {
  hprops : Config;      (* props of the last render *)
  hobs : Config;        (* props seen by the live observer callback, with the
                           delay of the debounced function *)
  hsession : Session;
  hmounted : bool
}.

Definition host_init (p : Config) : Host := mkHost p p (init p) true.

(** A re-render with props [p]. [newSections], [newCallback] and
    [newObserverDeps] say whether the host passes a new [sections] object, a
    new [onActiveTabChange] function, or a new [observerThreshold] or
    [activeZoneHeight]. *)
Definition render (h : Host) (p : Config)
    (newSections newCallback newObserverDeps : bool) : Host :=
  let old := hprops h in
  let resetRuns :=
    newSections || negb (String.eqb (initialActiveTab p) (initialActiveTab old)) in
  let observerRuns :=
    newSections || newObserverDeps
    || negb (optQ_eqb (activeLineOffset p) (activeLineOffset old))
    || negb (Qeq_bool (stickinessFactor p) (stickinessFactor old)) in
  let s := hsession h in
  (* cleanup of the observer effect *)
  let s0 := if observerRuns then cleanup s else s in
  (* activeTab effect: onActiveTabChange(activeTab) *)
  let s1 := if newCallback then set_out s0 (out s0 ++ [ONotify (activeTab s0)]) else s0 in
  (* reset effect: setActiveTab(getInitialActiveTab()) *)
  let s2 := if resetRuns then setActiveTab s1 (getInitialActiveTab p) else s1 in
  (* body of the observer effect *)
  let s3 := if observerRuns
            then set_observing s2 (containerMounted p && negb (Nat.eqb (length (sections p)) 0))
            else s2 in
  mkHost p (if observerRuns then with_delay p (debounceDelay (hobs h)) else hobs h) s3 true.

Inductive HostEvent :=
| HClick (tabId : string)
| HTick (entries : list Entry)
| HWait (d : N)
| HRender (p : Config) (newSections newCallback newObserverDeps : bool)
| HUnmount.

(** After unmounting nothing is observable: timers may still fire, but React
    ignores their state updates and no effect runs. *)
Definition hstep (h : Host) (e : HostEvent) : Host :=
  if hmounted h then
    let s := hsession h in
    match e with
    | HClick tabId => mkHost (hprops h) (hobs h) (handleTabClick (hprops h) s tabId) true
    | HTick entries =>
        mkHost (hprops h) (hobs h)
          (if observing s then observerCallback (hobs h) s entries else s) true
    | HWait d => mkHost (hprops h) (hobs h) (advance s (Z.of_N d)) true
    | HRender p ns nc no => render h p ns nc no
    | HUnmount => mkHost (hprops h) (hobs h) (cleanup s) false
    end
  else h.

Fixpoint hrun (h : Host) (evs : list HostEvent) : Host :=
  match evs with
  | [] => h
  | e :: evs' => hrun (hstep h e) evs'
  end.

(** ** Ranking order of the candidates, as the spec reads it:
    ratio descending, then visible height below the line descending, then
    distance of the top from the line ascending. *)
Definition ranked_before (line : Q) (a b : Processed) : Prop :=
  p_intersectionRatio b < p_intersectionRatio a
  \/ (p_intersectionRatio a == p_intersectionRatio b
      /\ (p_visibleHeightBelowActiveLine b < p_visibleHeightBelowActiveLine a
          \/ (p_visibleHeightBelowActiveLine a == p_visibleHeightBelowActiveLine b
              /\ Qabs (p_boundingClientRectTop a - line)
                 <= Qabs (p_boundingClientRectTop b - line)))).

(** ** Lemmas *)

Lemma qltb_true (x y : Q) : qltb x y = true <-> x < y.
Proof.
  unfold qltb. rewrite negb_true_iff. split; intro H.
  - apply Qnot_le_lt. intro H'. apply Qle_bool_iff in H'. congruence.
  - destruct (Qle_bool y x) eqn:E; [|reflexivity].
    apply Qle_bool_iff in E. exfalso. apply (Qlt_not_le x y); assumption.
Qed.

Lemma qltb_false (x y : Q) : qltb x y = false <-> y <= x.
Proof.
  unfold qltb. rewrite negb_false_iff. apply Qle_bool_iff.
Qed.

Lemma qneqb_false (x y : Q) : qneqb x y = false <-> x == y.
Proof.
  unfold qneqb. rewrite negb_false_iff. apply Qeq_bool_iff.
Qed.

Lemma qneqb_true (x y : Q) : qneqb x y = true <-> ~ x == y.
Proof.
  unfold qneqb. rewrite negb_true_iff. rewrite <- Qeq_bool_iff.
  destruct (Qeq_bool x y); split; congruence.
Qed.

Ltac qbool :=
  repeat match goal with
  | H : qltb _ _ = true |- _ => apply qltb_true in H
  | H : qltb _ _ = false |- _ => apply qltb_false in H
  | H : qneqb _ _ = true |- _ => apply qneqb_true in H
  | H : qneqb _ _ = false |- _ => apply qneqb_false in H
  end.

(** The comparator decides the ranking in both directions. *)
Lemma compare_candidates_pos (line : Q) (x y : Processed) :
  qltb 0 (compare_candidates line y x) = true -> ranked_before line x y.
Proof.
  unfold compare_candidates, ranked_before. intro H.
  destruct (qneqb (p_intersectionRatio x) (p_intersectionRatio y)) eqn:E1;
  [|destruct (qneqb (p_visibleHeightBelowActiveLine x)
                    (p_visibleHeightBelowActiveLine y)) eqn:E2];
  qbool.
  - left. lra.
  - right. split; [lra|]. left. lra.
  - right. split; [lra|]. right. split; lra.
Qed.

Lemma compare_candidates_nonpos (line : Q) (x y : Processed) :
  qltb 0 (compare_candidates line y x) = false -> ranked_before line y x.
Proof.
  unfold compare_candidates, ranked_before. intro H.
  destruct (qneqb (p_intersectionRatio x) (p_intersectionRatio y)) eqn:E1;
  [|destruct (qneqb (p_visibleHeightBelowActiveLine x)
                    (p_visibleHeightBelowActiveLine y)) eqn:E2];
  qbool.
  - left. lra.
  - right. split; [lra|]. left. lra.
  - right. split; [lra|]. right. split; lra.
Qed.

Lemma insert_by_perm cmp x l : Permutation (insert_by cmp x l) (x :: l).
Proof.
  induction l as [|y ys IH]; simpl; [reflexivity|].
  destruct (qltb 0 (cmp y x)); [reflexivity|].
  rewrite IH. apply perm_swap.
Qed.

Lemma sort_by_aux_perm cmp acc l : Permutation (sort_by_aux cmp acc l) (acc ++ l).
Proof.
  revert acc; induction l as [|x xs IH]; intro acc; simpl.
  - rewrite app_nil_r. reflexivity.
  - rewrite IH, insert_by_perm. simpl. apply Permutation_middle.
Qed.

Section Sorting.
Variable line : Q.
Let cmp := compare_candidates line.
Let R := ranked_before line.

Lemma insert_by_sorted x l : Sorted R l -> Sorted R (insert_by cmp x l).
Proof.
  induction 1 as [|y ys Hs IH Hd]; simpl.
  - repeat constructor.
  - destruct (qltb 0 (cmp y x)) eqn:E.
    + constructor; [constructor; assumption|].
      constructor. apply compare_candidates_pos. exact E.
    + constructor; [exact IH|].
      apply compare_candidates_nonpos in E.
      destruct ys as [|z zs]; simpl.
      * constructor. exact E.
      * destruct (qltb 0 (cmp z x)); constructor; [exact E|].
        inversion Hd; assumption.
Qed.

Lemma sort_by_aux_sorted acc l : Sorted R acc -> Sorted R (sort_by_aux cmp acc l).
Proof.
  revert acc; induction l as [|x xs IH]; intros acc H; simpl; [exact H|].
  apply IH, insert_by_sorted, H.
Qed.
End Sorting.

Lemma visibleCandidates_perm line entries :
  Permutation (visibleCandidates line entries)
    (filter is_candidate (map (process line) entries)).
Proof.
  unfold visibleCandidates, sort_by. rewrite sort_by_aux_perm. reflexivity.
Qed.

Lemma visibleCandidates_sorted line entries :
  Sorted (ranked_before line) (visibleCandidates line entries).
Proof.
  unfold visibleCandidates, sort_by. apply sort_by_aux_sorted. constructor.
Qed.

Lemma visibleCandidates_nil line entries :
  filter is_candidate (map (process line) entries) = [] ->
  visibleCandidates line entries = [].
Proof.
  intro H. unfold visibleCandidates. rewrite H. reflexivity.
Qed.

Lemma resolve_no_candidate line factor active entries :
  filter is_candidate (map (process line) entries) = [] ->
  resolve line factor active entries = None.
Proof.
  intro H. unfold resolve. rewrite (visibleCandidates_nil _ _ H).
  destruct (find _ _) as [cur|]; [|reflexivity].
  destruct (_ && _); reflexivity.
Qed.

(** ** Claims about the resolver *)

(** C1. When the current [activeId] is among the surviving candidates ([cur]
    is the entry [visibleCandidates.find] returns for it) and the top-ranked
    candidate differs from it, the callback forwards the top candidate's id
    exactly when [top.intersectionRatio >= cur.intersectionRatio *
    stickinessFactor], and forwards the current [activeId] otherwise. *)
Theorem resolve_stickiness (line factor : Q) (active : string)
    (entries : list Entry) (top cur : Processed) (rest : list Processed) :
  visibleCandidates line entries = top :: rest ->
  find (fun vc => String.eqb (p_id vc) active) (top :: rest) = Some cur ->
  p_id top <> active ->
  (p_intersectionRatio cur * factor <= p_intersectionRatio top ->
     resolve line factor active entries = Some (p_id top))
  /\ (p_intersectionRatio top < p_intersectionRatio cur * factor ->
     resolve line factor active entries = Some active).
Proof.
  intros Hvc Hfind Hne. unfold resolve. rewrite Hvc, Hfind.
  apply String.eqb_neq in Hne. rewrite Hne. simpl.
  split; intro H.
  - destruct (qltb _ _) eqn:E; [|reflexivity].
    apply qltb_true in E. exfalso. apply (Qlt_not_le _ _ E H).
  - apply qltb_true in H. rewrite H. reflexivity.
Qed.

(** C2. The candidates are exactly the reports that intersect, have a
    positive [visibleHeightBelowLine = max(0, visibleBottom - line)] and a
    ratio above 0.05 (with their multiplicities), ranked by ratio descending,
    then [visibleHeightBelowLine] descending, then [|rectTop - line|]
    ascending. *)
Theorem visibleCandidates_spec (line : Q) (entries : list Entry) :
  (forall p, In p (visibleCandidates line entries) <->
     exists e, In e entries /\ p = process line e
       /\ isIntersecting e = true
       /\ 0 < Qmax 0 (intersectionRectBottom e - line)
       /\ 1 # 20 < intersectionRatio e)
  /\ Permutation (visibleCandidates line entries)
       (filter is_candidate (map (process line) entries))
  /\ Sorted (ranked_before line) (visibleCandidates line entries).
Proof.
  split; [|split; [apply visibleCandidates_perm | apply visibleCandidates_sorted]].
  intro p. split.
  - intro H. apply (Permutation_in _ (visibleCandidates_perm line entries)) in H.
    apply filter_In in H as [H Hc]. apply in_map_iff in H as [e [He Hin]].
    subst p. exists e. unfold is_candidate in Hc. simpl in Hc.
    apply andb_true_iff in Hc as [Hc H3]. apply andb_true_iff in Hc as [H1 H2].
    apply qltb_true in H2, H3. repeat split; assumption.
  - intros [e [Hin [-> [H1 [H2 H3]]]]].
    apply (Permutation_in _ (Permutation_sym (visibleCandidates_perm line entries))).
    apply filter_In. split; [apply in_map, Hin|].
    unfold is_candidate. simpl. rewrite H1.
    apply qltb_true in H2, H3. rewrite H2, H3. reflexivity.
Qed.

(** C5. A tick in which no report passes the candidate filter takes no
    action, whether or not the active section is still slightly visible: the
    session (active id, timers, notifications) is left as it was. *)
Theorem tick_without_candidate_no_action (cfg : Config) (s : Session)
    (entries : list Entry) :
  filter is_candidate (map (process (effectiveActiveLineOffset cfg)) entries) = [] ->
  step cfg s (ETick entries) = s.
Proof.
  intro H. simpl. destruct (observing s); [|reflexivity].
  unfold observerCallback. destruct (isProgrammaticScroll s); [reflexivity|].
  rewrite resolve_no_candidate by exact H. reflexivity.
Qed.

(** ** Session lemmas *)

Lemma setActiveTab_fields s v :
  isProgrammaticScroll (setActiveTab s v) = isProgrammaticScroll s
  /\ programmaticScrollTimeout (setActiveTab s v) = programmaticScrollTimeout s
  /\ debounceTimeout (setActiveTab s v) = debounceTimeout s
  /\ now (setActiveTab s v) = now s
  /\ observing (setActiveTab s v) = observing s.
Proof.
  unfold setActiveTab. destruct (String.eqb _ _); repeat split.
Qed.

Lemma updateActiveTab_fields s v :
  isProgrammaticScroll (updateActiveTab s v) = isProgrammaticScroll s
  /\ programmaticScrollTimeout (updateActiveTab s v) = programmaticScrollTimeout s
  /\ debounceTimeout (updateActiveTab s v) = debounceTimeout s
  /\ now (updateActiveTab s v) = now s
  /\ observing (updateActiveTab s v) = observing s.
Proof.
  unfold updateActiveTab. destruct (_ && _); [apply setActiveTab_fields|repeat split].
Qed.

Lemma now_step cfg s e : (now s <= now (step cfg s e))%Z.
Proof.
  destruct e as [tabId|entries|d|]; simpl.
  - unfold handleTabClick. destruct (sectionElement cfg tabId); [|lia].
    destruct (containerMounted cfg); [|lia].
    rewrite (proj1 (proj2 (proj2 (proj2 (setActiveTab_fields _ _))))). simpl. lia.
  - destruct (observing s); [|lia]. unfold observerCallback.
    destruct (isProgrammaticScroll s); [lia|].
    destruct (resolve _ _ _ _); simpl; lia.
  - unfold advance. simpl. lia.
  - simpl. lia.
Qed.

Lemma now_run cfg s evs : (now s <= now (run cfg s evs))%Z.
Proof.
  revert s; induction evs as [|e evs IH]; intro s; simpl; [lia|].
  specialize (now_step cfg s e). specialize (IH (step cfg s e)). lia.
Qed.

Lemma handleTabClick_resolved cfg s tabId top :
  sectionElement cfg tabId = Some top -> containerMounted cfg = true ->
  isProgrammaticScroll (handleTabClick cfg s tabId) = true
  /\ programmaticScrollTimeout (handleTabClick cfg s tabId)
     = Some (now s + PROGRAMMATIC_SCROLL_SETTLE)%Z
  /\ debounceTimeout (handleTabClick cfg s tabId) = debounceTimeout s
  /\ now (handleTabClick cfg s tabId) = now s
  /\ observing (handleTabClick cfg s tabId) = observing s.
Proof.
  intros Hs Hc. unfold handleTabClick. rewrite Hs, Hc.
  match goal with |- context [setActiveTab ?x tabId] =>
    destruct (setActiveTab_fields x tabId) as [E1 [E2 [E3 [E4 E5]]]] end.
  rewrite E1, E2, E3, E4, E5. repeat split.
Qed.

(** Suppression window opened at time [t0]. *)
Definition suppressed_since (t0 : Z) (s : Session) : Prop :=
  isProgrammaticScroll s = true /\ (t0 <= now s)%Z
  /\ forall u, programmaticScrollTimeout s = Some u -> (t0 + PROGRAMMATIC_SCROLL_SETTLE <= u)%Z.

Lemma suppressed_since_step cfg t0 s e :
  suppressed_since t0 s ->
  (now (step cfg s e) < t0 + PROGRAMMATIC_SCROLL_SETTLE)%Z ->
  suppressed_since t0 (step cfg s e).
Proof.
  unfold suppressed_since. intros [Hp [Hn Hu]] Hlt.
  destruct e as [tabId|entries|d|]; cbn [step] in *.
  - destruct (sectionElement cfg tabId) as [top|] eqn:Es;
      [|unfold handleTabClick in *; rewrite Es in *; repeat split; auto].
    destruct (containerMounted cfg) eqn:Ec;
      [|unfold handleTabClick in *; rewrite Es, Ec in *; repeat split; auto].
    destruct (handleTabClick_resolved cfg s tabId top Es Ec) as [E1 [E2 [_ [E4 _]]]].
    rewrite E1, E2, E4. repeat split; [lia|].
    intros u Hu'. injection Hu' as <-. lia.
  - destruct (observing s); [|repeat split; auto].
    unfold observerCallback in *. rewrite Hp in *. repeat split; auto.
  - unfold advance in *. simpl in Hlt.
    assert (Hnf : forall u, programmaticScrollTimeout s = Some u ->
                  (u <=? now s + Z.of_N d)%Z = false).
    { intros u Hs. apply Z.leb_gt. specialize (Hu u Hs). lia. }
    destruct (programmaticScrollTimeout s) as [u|] eqn:Et.
    + rewrite (Hnf u eq_refl).
      destruct (debounceTimeout s) as [[v c]|];
        [destruct (v <=? _)%Z|]; simpl;
        try (destruct (updateActiveTab_fields (set_debounce s None) c)
               as [E1 [E2 [_ [E4 _]]]]; simpl in E1, E2, E4;
             rewrite ?E1, ?E2, ?E4);
        repeat split; auto; try lia; rewrite Et; auto.
    + destruct (debounceTimeout s) as [[v c]|];
        [destruct (v <=? _)%Z|]; simpl;
        try (destruct (updateActiveTab_fields (set_debounce s None) c)
               as [E1 [E2 [_ [E4 _]]]]; simpl in E1, E2, E4;
             rewrite ?E1, ?E2, ?E4);
        repeat split; auto; try lia; rewrite Et; discriminate.
  - unfold cleanup. simpl. repeat split; auto. discriminate.
Qed.

Lemma suppressed_since_run cfg t0 s evs :
  suppressed_since t0 s ->
  (now (run cfg s evs) < t0 + PROGRAMMATIC_SCROLL_SETTLE)%Z ->
  suppressed_since t0 (run cfg s evs).
Proof.
  revert s; induction evs as [|e evs IH]; intros s Hs Hlt; simpl in *; [exact Hs|].
  apply IH; [|exact Hlt].
  apply suppressed_since_step; [exact Hs|].
  specialize (now_run cfg (step cfg s e) evs). lia.
Qed.

(** ** Claims about suppression and the debounced dispatcher *)

(** C3. After a click on a resolvable section, until the 800 ms settle
    window has elapsed (whatever events happen meanwhile: further clicks,
    ticks, timers, teardown), the suppression flag stays set and every
    visibility tick is skipped entirely: it leaves the whole session (active
    id, pending debounce) unchanged. *)
Theorem click_suppresses_ticks (cfg : Config) (s : Session) (tabId : string)
    (top : Q) (evs : list Event) (entries : list Entry) :
  sectionElement cfg tabId = Some top ->
  containerMounted cfg = true ->
  (now (run cfg (step cfg s (EClick tabId)) evs) < now s + PROGRAMMATIC_SCROLL_SETTLE)%Z ->
  isProgrammaticScroll (run cfg (step cfg s (EClick tabId)) evs) = true
  /\ step cfg (run cfg (step cfg s (EClick tabId)) evs) (ETick entries)
     = run cfg (step cfg s (EClick tabId)) evs.
Proof.
  intros Hs Hc Hlt.
  assert (H0 : suppressed_since (now s) (step cfg s (EClick tabId))).
  { destruct (handleTabClick_resolved cfg s tabId top Hs Hc) as [E1 [E2 [_ [E4 _]]]].
    unfold suppressed_since. cbn [step]. rewrite E1, E2, E4.
    repeat split; [lia|]. intros u Hu. injection Hu as <-. lia. }
  destruct (suppressed_since_run cfg _ _ evs H0 Hlt) as [Hp _].
  split; [exact Hp|].
  revert Hp. generalize (run cfg (step cfg s (EClick tabId)) evs). intros r Hp.
  cbn [step]. destruct (observing r); [|reflexivity].
  unfold observerCallback. rewrite Hp. reflexivity.
Qed.

(** Candidate emissions [(c, d)]: [debouncedUpdateActiveTab(c)], then [d] ms
    pass. *)
Fixpoint emit_all (cfg : Config) (s : Session) (emits : list (string * N)) : Session :=
  match emits with
  | [] => s
  | (c, d) :: rest =>
      emit_all cfg (advance (debouncedUpdateActiveTab cfg s c) (Z.of_N d)) rest
  end.

Lemma advance_fires_programmatic_only s d :
  (forall u c, debounceTimeout s = Some (u, c) -> (now s + d < u)%Z) ->
  activeTab (advance s d) = activeTab s /\ out (advance s d) = out s
  /\ debounceTimeout (advance s d) = debounceTimeout s.
Proof.
  intro H. unfold advance.
  destruct (debounceTimeout s) as [[v c]|] eqn:E.
  - assert (Hv : (v <=? now s + d)%Z = false) by (apply Z.leb_gt, (H v c eq_refl)).
    destruct (programmaticScrollTimeout s) as [u|]; [destruct (u <=? _)%Z|];
      simpl; rewrite E, Hv; simpl; rewrite ?E; repeat split.
  - destruct (programmaticScrollTimeout s) as [u|]; [destruct (u <=? _)%Z|];
      simpl; rewrite ?E; simpl; rewrite ?E; repeat split.
Qed.

Lemma emit_all_quiet cfg s emits :
  Forall (fun cd => (Z.of_N (snd cd) < Z.max 0 (debounceDelay cfg))%Z) emits ->
  activeTab (emit_all cfg s emits) = activeTab s /\ out (emit_all cfg s emits) = out s.
Proof.
  intro H. revert s; induction H as [|[c d] emits Hd _ IH]; intro s; simpl in *.
  - split; reflexivity.
  - destruct (IH (advance (debouncedUpdateActiveTab cfg s c) (Z.of_N d))) as [E1 E2].
    rewrite E1, E2.
    destruct (advance_fires_programmatic_only (debouncedUpdateActiveTab cfg s c) (Z.of_N d))
      as [F1 [F2 _]].
    + unfold debouncedUpdateActiveTab, debounce_call. simpl.
      intros u c'. destruct (debounceTimeout s); intro Hu; injection Hu as <- _; lia.
    + rewrite F1, F2. split; reflexivity.
Qed.

Lemma advance_fires_debounce s d u c :
  debounceTimeout s = Some (u, c) -> (u <= now s + d)%Z ->
  let commit := negb (String.eqb c "") && negb (String.eqb c (activeTab s)) in
  debounceTimeout (advance s d) = None
  /\ activeTab (advance s d) = (if commit then c else activeTab s)
  /\ out (advance s d) = (if commit then out s ++ [ONotify c] else out s).
Proof.
  intros E Hle commit. subst commit.
  apply Z.leb_le in Hle. unfold advance.
  assert (Hs : forall s1, activeTab s1 = activeTab s -> out s1 = out s ->
    debounceTimeout s1 = Some (u, c) ->
    let s2 := updateActiveTab (set_debounce s1 None) c in
    debounceTimeout s2 = None
    /\ activeTab s2 = (if negb (String.eqb c "") && negb (String.eqb c (activeTab s))
                       then c else activeTab s)
    /\ out s2 = (if negb (String.eqb c "") && negb (String.eqb c (activeTab s))
                 then out s ++ [ONotify c] else out s)).
  { intros s1 A1 O1 D1 s2. subst s2. unfold updateActiveTab, setActiveTab.
    cbn [set_debounce activeTab out debounceTimeout]. rewrite A1, O1.
    destruct (String.eqb c "") eqn:Ee; cbn [negb andb];
      [cbn; rewrite A1, O1; repeat split|].
    destruct (String.eqb c (activeTab s)) eqn:Ea; cbn [negb andb];
      cbn; rewrite ?A1, ?O1, ?Ea; repeat split. }
  destruct (programmaticScrollTimeout s) as [w|];
    [destruct (w <=? now s + d)%Z|]; simpl; rewrite E, Hle;
    match goal with |- context [updateActiveTab (set_debounce ?x None) c] =>
      destruct (Hs x eq_refl eq_refl E) as [H1 [H2 H3]] end;
    rewrite H1, H2, H3; repeat split.
Qed.

(** C4. Emissions [c1, ..., cn, c] each following the previous one by less
    than the quiet period, then a quiet period: exactly one commit happens,
    to the last candidate [c], and only when [c] differs from the active id
    (an empty id is ignored); otherwise nothing is committed or notified. *)
Theorem debounce_commits_last (cfg : Config) (s : Session)
    (emits : list (string * N)) (c : string) (dlast : N) :
  Forall (fun cd => (Z.of_N (snd cd) < Z.max 0 (debounceDelay cfg))%Z) emits ->
  (Z.max 0 (debounceDelay cfg) <= Z.of_N dlast)%Z ->
  let s' := advance (debouncedUpdateActiveTab cfg (emit_all cfg s emits) c)
                    (Z.of_N dlast) in
  debounceTimeout s' = None
  /\ (if negb (String.eqb c "") && negb (String.eqb c (activeTab s))
      then activeTab s' = c /\ out s' = out s ++ [ONotify c]
      else activeTab s' = activeTab s /\ out s' = out s).
Proof.
  intros Hq Hl s'. subst s'.
  destruct (emit_all_quiet cfg s emits Hq) as [E1 E2].
  remember (emit_all cfg s emits) as s2 eqn:Hs2. clear Hs2.
  rewrite <- E1, <- E2. clear E1 E2.
  destruct (advance_fires_debounce (debouncedUpdateActiveTab cfg s2 c) (Z.of_N dlast)
              (now s2 + Z.max 0 (debounceDelay cfg)) c) as [H1 [H2 H3]].
  - unfold debouncedUpdateActiveTab, debounce_call. simpl.
    destruct (debounceTimeout s2); reflexivity.
  - simpl. lia.
  - change (activeTab (debouncedUpdateActiveTab cfg s2 c)) with (activeTab s2) in H2, H3.
    change (out (debouncedUpdateActiveTab cfg s2 c)) with (out s2) in H3.
    rewrite H1, H2, H3. split; [reflexivity|].
    destruct (_ && _); split; reflexivity.
Qed.

(** ** Claims about [handleTabClick] and the line offsets *)

Lemma clickLineOffset_cases cfg :
  (forall a, activeLineOffset cfg = Some a -> clickLineOffset cfg = (a, []))
  /\ (activeLineOffset cfg = None -> ~ navTabsHeight cfg == 0 ->
       clickLineOffset cfg = (navTabsHeight cfg, []))
  /\ (activeLineOffset cfg = None -> navTabsHeight cfg == 0 ->
       clickLineOffset cfg = (DEFAULT_NAV_HEIGHT, [OWarn])).
Proof.
  unfold clickLineOffset. repeat split.
  - intros a Ha. rewrite Ha. rewrite andb_false_r. reflexivity.
  - intros Ha Hz. rewrite Ha.
    replace (Qeq_bool (navTabsHeight cfg) 0) with false; [reflexivity|].
    symmetry. apply qneqb_true in Hz. unfold qneqb in Hz.
    apply negb_true_iff in Hz. exact Hz.
  - intros Ha Hz. rewrite Ha. apply Qeq_bool_iff in Hz. rewrite Hz. reflexivity.
Qed.

(** C6. A click on a registered section with a mounted container scrolls to
    [offsetTop - effectiveLineOffset], where the offset is [activeLineOffset]
    when set, else the measured nav height, else (height 0, no override) 60
    with a warning. *)
Theorem click_scroll_target (cfg : Config) (s : Session) (tabId : string) (top : Q) :
  sectionElement cfg tabId = Some top ->
  containerMounted cfg = true ->
  exists (E : Q) (W N : list Output),
    out (step cfg s (EClick tabId)) = out s ++ W ++ [OScrollTo (top - E)] ++ N
    /\ (N = [] \/ N = [ONotify tabId])
    /\ (forall a, activeLineOffset cfg = Some a -> E = a /\ W = [])
    /\ (activeLineOffset cfg = None -> ~ navTabsHeight cfg == 0 ->
          E = navTabsHeight cfg /\ W = [])
    /\ (activeLineOffset cfg = None -> navTabsHeight cfg == 0 ->
          E = DEFAULT_NAV_HEIGHT /\ W = [OWarn]).
Proof.
  intros Hs Hc. cbn [step]. unfold handleTabClick. rewrite Hs, Hc.
  destruct (clickLineOffset_cases cfg) as [C1 [C2 C3]].
  exists (fst (clickLineOffset cfg)), (snd (clickLineOffset cfg)).
  exists (if String.eqb tabId (activeTab s) then [] else [ONotify tabId]).
  split; [|split; [destruct (String.eqb _ _); auto|]].
  - unfold setActiveTab. cbn [set_out set_programmatic activeTab out].
    destruct (String.eqb tabId _); simpl; rewrite ?app_nil_r, <- ?app_assoc; reflexivity.
  - repeat split; intros;
      [rewrite (C1 a H)|rewrite (C1 a H)|rewrite (C2 H H0)|rewrite (C2 H H0)
      |rewrite (C3 H H0)|rewrite (C3 H H0)]; reflexivity.
Qed.

(** C8. A click whose section element or scroll container cannot be resolved
    changes nothing: active id, suppression flag, un-suppress timer and the
    emitted effects are all as before. *)
Theorem click_unresolvable_noop (cfg : Config) (s : Session) (tabId : string) :
  sectionElement cfg tabId = None \/ containerMounted cfg = false ->
  step cfg s (EClick tabId) = s.
Proof.
  intros H. cbn [step]. unfold handleTabClick.
  destruct H as [H|H]; rewrite H; [reflexivity|].
  destruct (sectionElement cfg tabId); reflexivity.
Qed.

(** C10. Without [activeLineOffset] and with a positive nav height [h], the
    observer's active line is [h + 5] while the click offset is [h]. *)
Theorem line_offsets_differ_by_margin (cfg : Config) :
  activeLineOffset cfg = None ->
  0 < navTabsHeight cfg ->
  effectiveActiveLineOffset cfg = navTabsHeight cfg + 5
  /\ fst (clickLineOffset cfg) = navTabsHeight cfg.
Proof.
  intros Ha Hp.
  assert (Hz : Qeq_bool (navTabsHeight cfg) 0 = false).
  { destruct (Qeq_bool _ _) eqn:E; [|reflexivity].
    apply Qeq_bool_iff in E. rewrite E in Hp. discriminate. }
  unfold effectiveActiveLineOffset, clickLineOffset. rewrite Ha, Hz. split; reflexivity.
Qed.

(** ** The [activeId] invariant *)

(** Events whose visibility reports come from registered sections: the
    observer only observes the sections' elements, whose ids are the keys. *)
Definition event_ok (cfg : Config) (e : Event) : Prop :=
  match e with
  | ETick entries => Forall (fun en => In (target_id en) (sectionKeys cfg)) entries
  | _ => True
  end.

Definition active_ok (cfg : Config) (a : string) : Prop :=
  (In a (sectionKeys cfg) /\ a <> ""%string) \/ (a = ""%string /\ sectionKeys cfg = []).

Definition session_ok (cfg : Config) (s : Session) : Prop :=
  active_ok cfg (activeTab s)
  /\ forall u c, debounceTimeout s = Some (u, c) -> In c (sectionKeys cfg) \/ c = ""%string.

(** Props under which the invariant is expected: non-empty keys, and an
    [initialActiveTab] that is unset or registered. *)
Definition config_ok (p : Config) : Prop :=
  (forall k, In k (sectionKeys p) -> k <> ""%string)
  /\ (initialActiveTab p = ""%string \/ In (initialActiveTab p) (sectionKeys p)).

(** A host event under the current props [props]: a report names a key
    registered now; a re-render passes acceptable props, removes no key, and
    passes a new [sections] object whenever it changes the keys. *)
Definition hevent_ok (props : Config) (e : HostEvent) : Prop :=
  match e with
  | HTick entries => Forall (fun en => In (target_id en) (sectionKeys props)) entries
  | HRender p newSections _ _ =>
      config_ok p /\ incl (sectionKeys props) (sectionKeys p)
      /\ (sectionKeys p <> sectionKeys props -> newSections = true)
  | _ => True
  end.

Definition next_props (props : Config) (e : HostEvent) : Config :=
  match e with
  | HRender p _ _ _ => p
  | _ => props
  end.

Fixpoint props_ok (props : Config) (evs : list HostEvent) : Prop :=
  match evs with
  | [] => True
  | e :: evs' => hevent_ok props e /\ props_ok (next_props props e) evs'
  end.

Definition host_ok (h : Host) : Prop :=
  config_ok (hprops h) /\ session_ok (hprops h) (hsession h).

Lemma sectionElement_in cfg tabId top :
  sectionElement cfg tabId = Some top -> In tabId (sectionKeys cfg).
Proof.
  unfold sectionElement, sectionKeys.
  destruct (find _ _) as [[k el]|] eqn:E; [|discriminate]. intros _.
  apply find_some in E as [Hin Heq]. apply String.eqb_eq in Heq. simpl in Heq. subst k.
  apply (in_map fst) in Hin. exact Hin.
Qed.

Lemma setActiveTab_activeTab s v : activeTab (setActiveTab s v) = v.
Proof.
  unfold setActiveTab. destruct (String.eqb v _) eqn:E; [|reflexivity].
  apply String.eqb_eq in E. symmetry. exact E.
Qed.

Lemma resolve_some line f active entries c :
  resolve line f active entries = Some c ->
  c = active \/ exists en, In en entries /\ c = target_id en.
Proof.
  unfold resolve.
  assert (Hv : forall p, In p (visibleCandidates line entries) ->
                exists en, In en entries /\ p_id p = target_id en).
  { intros p Hp. apply (Permutation_in _ (visibleCandidates_perm line entries)) in Hp.
    apply filter_In in Hp as [Hp _]. apply in_map_iff in Hp as [en [<- Hin]].
    exists en. split; [exact Hin|reflexivity]. }
  destruct (visibleCandidates line entries) as [|top rest] eqn:E.
  - destruct (find _ _); [destruct (_ && _)|]; discriminate.
  - assert (Ht : exists en, In en entries /\ p_id top = target_id en)
      by (apply Hv; left; reflexivity).
    destruct Ht as [en [Hin Hid]].
    destruct (find _ _) as [cur|];
      [destruct (negb _); [destruct (qltb _ _)|]|]; intro H; injection H as <-;
      first [left; reflexivity | right; exists en; split; assumption].
Qed.

Section ActiveInvariant.
Variable cfg : Config.
Hypothesis keys_nonempty : forall k, In k (sectionKeys cfg) -> k <> ""%string.

Lemma session_ok_step s e :
  session_ok cfg s -> event_ok cfg e -> session_ok cfg (step cfg s e).
Proof.
  intros [Ha Hd] He. destruct e as [tabId|entries|d|]; cbn [step].
  - destruct (sectionElement cfg tabId) as [top|] eqn:Es;
      [|unfold handleTabClick; rewrite Es; split; assumption].
    destruct (containerMounted cfg) eqn:Ec;
      [|unfold handleTabClick; rewrite Es, Ec; split; assumption].
    destruct (handleTabClick_resolved cfg s tabId top Es Ec) as [_ [_ [E3 _]]].
    split; [|rewrite E3; exact Hd].
    unfold handleTabClick. rewrite Es, Ec. rewrite setActiveTab_activeTab.
    left. split; [apply (sectionElement_in _ _ _ Es)|].
    apply keys_nonempty, (sectionElement_in _ _ _ Es).
  - destruct (observing s); [|split; assumption].
    unfold observerCallback. destruct (isProgrammaticScroll s); [split; assumption|].
    destruct (resolve _ _ _ _) as [c|] eqn:Er; [|split; assumption].
    split; [exact Ha|].
    unfold debouncedUpdateActiveTab, debounce_call. simpl.
    intros u c'. destruct (debounceTimeout s); intro H; injection H as _ <-;
    (destruct (resolve_some _ _ _ _ _ Er) as [->|[en [Hin ->]]];
     [destruct Ha as [[Hk _]|[Hk _]]; [left; exact Hk|right; exact Hk]
     |left; unfold event_ok in He; rewrite Forall_forall in He; exact (He en Hin)]).
  - unfold advance.
    assert (Hp : forall s1, activeTab s1 = activeTab s -> debounceTimeout s1 = debounceTimeout s ->
                 session_ok cfg s1).
    { intros s1 A1 D1. split; [rewrite A1; exact Ha|rewrite D1; exact Hd]. }
    assert (Hq : session_ok cfg (match programmaticScrollTimeout s with
          | Some u => if (u <=? now s + Z.of_N d)%Z then set_programmatic s false None else s
          | None => s end)).
    { destruct (programmaticScrollTimeout s); [destruct (_ <=? _)%Z|]; apply Hp; reflexivity. }
    remember (match programmaticScrollTimeout s with
          | Some u => if (u <=? now s + Z.of_N d)%Z then set_programmatic s false None else s
          | None => s end) as s1 eqn:Hs1. clear Hs1 Hp.
    destruct Hq as [Ha1 Hd1].
    destruct (debounceTimeout s1) as [[u c]|] eqn:Ed.
    + destruct (u <=? _)%Z.
      * split; [|unfold updateActiveTab, setActiveTab; simpl;
                 destruct (_ && _); [destruct (String.eqb _ _)|]; simpl; discriminate].
        unfold updateActiveTab. simpl.
        destruct (negb (String.eqb c "") && negb (String.eqb c (activeTab s1))) eqn:Ec;
          [|exact Ha1].
        rewrite setActiveTab_activeTab. apply andb_true_iff in Ec as [Ec _].
        apply negb_true_iff, String.eqb_neq in Ec.
        destruct (Hd1 u c eq_refl) as [Hk|Hk]; [|contradiction].
        left. split; assumption.
      * split; [exact Ha1|simpl; rewrite Ed; exact Hd1].
    + split; [exact Ha1|simpl; rewrite Ed; exact Hd1].
  - split; assumption.
Qed.

Lemma session_ok_run s evs :
  session_ok cfg s -> Forall (event_ok cfg) evs -> session_ok cfg (run cfg s evs).
Proof.
  intros Hs Hevs. revert s Hs; induction Hevs as [|e evs He _ IH]; intros s Hs; simpl.
  - exact Hs.
  - apply IH, session_ok_step; assumption.
Qed.
End ActiveInvariant.

Lemma getInitialActiveTab_ok p : config_ok p -> active_ok p (getInitialActiveTab p).
Proof.
  intros [Hk Hi]. unfold getInitialActiveTab, active_ok.
  destruct (String.eqb (initialActiveTab p) "") eqn:E; cbn [negb].
  - destruct (sectionKeys p) as [|k ks] eqn:Eks.
    + right. split; reflexivity.
    + left. split; [left; reflexivity|apply Hk; rewrite ?Eks; left; reflexivity].
  - apply String.eqb_neq in E. destruct Hi as [Hi|Hi]; [contradiction|].
    left. split; assumption.
Qed.

Lemma session_ok_tick props obs s entries :
  session_ok props s ->
  Forall (fun en => In (target_id en) (sectionKeys props)) entries ->
  session_ok props (if observing s then observerCallback obs s entries else s).
Proof.
  intros [Ha Hd] He. destruct (observing s); [|split; assumption].
  unfold observerCallback. destruct (isProgrammaticScroll s); [split; assumption|].
  destruct (resolve _ _ _ _) as [c|] eqn:Er; [|split; assumption].
  split; [exact Ha|].
  unfold debouncedUpdateActiveTab, debounce_call. simpl.
  intros u c'. destruct (debounceTimeout s); intro H; injection H as _ <-;
  (destruct (resolve_some _ _ _ _ _ Er) as [->|[en [Hin ->]]];
   [destruct Ha as [[Hk _]|[Hk _]]; [left; exact Hk|right; exact Hk]
   |left; rewrite Forall_forall in He; exact (He en Hin)]).
Qed.

Lemma render_fields h p ns nc no :
  hprops (render h p ns nc no) = p
  /\ hmounted (render h p ns nc no) = true
  /\ activeTab (hsession (render h p ns nc no))
     = (if ns || negb (String.eqb (initialActiveTab p) (initialActiveTab (hprops h)))
        then getInitialActiveTab p else activeTab (hsession h))
  /\ debounceTimeout (hsession (render h p ns nc no)) = debounceTimeout (hsession h).
Proof.
  unfold render. cbv zeta.
  set (r := ns || negb _). set (o := ns || no || _ || _).
  split; [reflexivity|]. split; [reflexivity|].
  destruct o, r, nc;
    cbn [hsession set_observing cleanup set_programmatic set_out activeTab debounceTimeout];
    rewrite ?setActiveTab_activeTab,
            ?(proj1 (proj2 (proj2 (setActiveTab_fields _ _))));
    split; reflexivity.
Qed.

Lemma host_ok_step h e : host_ok h -> hevent_ok (hprops h) e -> host_ok (hstep h e).
Proof.
  intros [Hc Hs] He. unfold hstep. destruct (hmounted h); [|split; assumption].
  destruct e as [tabId|entries|d|p ns nc no|]; cbn [hprops hsession].
  - split; [exact Hc|].
    exact (session_ok_step (hprops h) (proj1 Hc) (hsession h) (EClick tabId) Hs I).
  - split; [exact Hc|]. apply session_ok_tick; assumption.
  - split; [exact Hc|].
    exact (session_ok_step (hprops h) (proj1 Hc) (hsession h) (EWait d) Hs I).
  - destruct He as [Hp [Hincl Hns]].
    destruct (render_fields h p ns nc no) as [E1 [_ [E2 E3]]].
    split; rewrite E1; [exact Hp|]. destruct Hs as [Ha Hd]. split.
    + rewrite E2. destruct (ns || _) eqn:Er; [apply getInitialActiveTab_ok, Hp|].
      destruct (list_eq_dec string_dec (sectionKeys p) (sectionKeys (hprops h)))
        as [Ek|Ek].
      * unfold active_ok. rewrite Ek. exact Ha.
      * apply Hns in Ek. subst ns. discriminate.
    + intros u c Hu. rewrite E3 in Hu.
      destruct (Hd u c Hu) as [Hk|Hk]; [left; apply Hincl, Hk|right; exact Hk].
  - split; [exact Hc|].
    exact (session_ok_step (hprops h) (proj1 Hc) (hsession h) ETeardown Hs I).
Qed.

Lemma hstep_props h e :
  hmounted (hstep h e) = true -> hprops (hstep h e) = next_props (hprops h) e
  /\ hmounted h = true.
Proof.
  unfold hstep. destruct (hmounted h) eqn:Em; [|intro H; rewrite Em in H; discriminate].
  destruct e as [tabId|entries|d|p ns nc no|]; cbn [hmounted hprops next_props];
    intro H; try discriminate; split; reflexivity.
Qed.

Lemma host_ok_run h props evs :
  host_ok h -> (hmounted h = true -> hprops h = props) -> props_ok props evs ->
  host_ok (hrun h evs).
Proof.
  revert h props. induction evs as [|e evs IH]; intros h props Hh Hp Hevs; [exact Hh|].
  destruct Hevs as [He Hevs]. simpl. apply (IH _ (next_props props e)); [| |exact Hevs].
  - destruct (hmounted h) eqn:Em.
    + rewrite <- (Hp eq_refl) in He. apply host_ok_step; assumption.
    + unfold hstep. rewrite Em. exact Hh.
  - intro Hm. destruct (hstep_props h e Hm) as [E Hm'].
    rewrite E, (Hp Hm'). reflexivity.
Qed.

(** C7 (as the code does it). Suppose every props value has non-empty keys
    and an [initialActiveTab] that is unset or registered, re-renders never
    remove a key and pass a new [sections] object whenever they change its
    keys, and every visibility report names a key registered at that time.
    Then in every reachable state [activeId] is a key of the current
    [sections], or empty only when it has no key. *)
Theorem activeTab_registered (p0 : Config) (evs : list HostEvent) :
  config_ok p0 -> props_ok p0 evs ->
  active_ok (hprops (hrun (host_init p0) evs))
    (activeTab (hsession (hrun (host_init p0) evs))).
Proof.
  intros Hc Hevs.
  assert (H0 : host_ok (host_init p0)).
  { split; [exact Hc|]. split; [apply getInitialActiveTab_ok, Hc|].
    intros u c H; discriminate. }
  exact (proj1 (proj2 (host_ok_run (host_init p0) p0 evs H0 (fun _ => eq_refl) Hevs))).
Qed.

(** A configuration whose [initialActiveTab] names no section. *)
Definition cfg_unregistered_initial : Config :=
  mkConfig [("a"%string, Some 0)] true 60 None DEFAULT_STICKINESS_FACTOR
    DEFAULT_DEBOUNCE_DELAY "x".

(** C7 fails as stated: right after mounting, [activeId] is the
    unregistered ["x"] although a section is registered. *)
Lemma activeTab_unregistered_initial :
  activeTab (init cfg_unregistered_initial) = "x"%string
  /\ ~ In (activeTab (init cfg_unregistered_initial)) (sectionKeys cfg_unregistered_initial).
Proof.
  split; [reflexivity|]. simpl. intros [H|[]]. discriminate.
Qed.

(** ** Teardown *)

(** Two sections, [a] at 0 and [b] at 600, nav height 60. *)
Definition cfg_two : Config :=
  mkConfig [("a"%string, Some 0); ("b"%string, Some 600)] true 60 None
    DEFAULT_STICKINESS_FACTOR DEFAULT_DEBOUNCE_DELAY "".

(** [b] fully visible below the active line. *)
Definition entry_b_visible : Entry := mkEntry "b" true 1 100 400.

(** C9 fails as stated: a candidate emitted just before teardown leaves the
    debounce timer pending; it fires afterwards and commits [b], notifying. *)
Lemma teardown_keeps_debounce :
  debounceTimeout (run cfg_two (init cfg_two) [ETick [entry_b_visible]; ETeardown]) <> None
  /\ activeTab (run cfg_two (init cfg_two) [ETick [entry_b_visible]; ETeardown; EWait 200])
     = "b"%string
  /\ out (run cfg_two (init cfg_two) [ETick [entry_b_visible]; ETeardown; EWait 200])
     = out (run cfg_two (init cfg_two) [ETick [entry_b_visible]; ETeardown])
       ++ [ONotify "b"].
Proof.
  split; [vm_compute; discriminate|]. split; vm_compute; reflexivity.
Qed.

(** C9 (as the code does it). The effect's cleanup cancels the pending
    un-suppress timer and stops delivering ticks, but keeps the pending
    debounce timer (it is not cancelled). *)
Theorem cleanup_cancels_unsuppress_only (cfg : Config) (s : Session) :
  programmaticScrollTimeout (step cfg s ETeardown) = None
  /\ observing (step cfg s ETeardown) = false
  /\ debounceTimeout (step cfg s ETeardown) = debounceTimeout s
  /\ forall entries, step cfg (step cfg s ETeardown) (ETick entries) = step cfg s ETeardown.
Proof.
  repeat split.
Qed.

(** ** Concrete instances *)

Definition entry_A (r : Q) : Entry := mkEntry "A" true r 70 300.
Definition entry_B (r : Q) : Entry := mkEntry "B" true r 300 500.

(** Current [A] at 0.50, stickiness 1.2: [B] at 0.52 keeps [A], [B] at 0.65
    switches to [B]. *)
Lemma resolve_stickiness_witness :
  resolve 65 (6 # 5) "A" [entry_A (50 # 100); entry_B (52 # 100)] = Some "A"%string
  /\ resolve 65 (6 # 5) "A" [entry_A (50 # 100); entry_B (65 # 100)] = Some "B"%string.
Proof.
  split.
  - refine (proj2 (resolve_stickiness 65 (6 # 5) "A"
                     [entry_A (50 # 100); entry_B (52 # 100)] _ _ _
                     eq_refl eq_refl _) _).
    + discriminate.
    + reflexivity.
  - refine (proj1 (resolve_stickiness 65 (6 # 5) "A"
                     [entry_A (50 # 100); entry_B (65 # 100)] _ _ _
                     eq_refl eq_refl _) _).
    + discriminate.
    + apply Qle_bool_iff. reflexivity.
Defined.

(** [a] is [3%] visible, [b] [5%]: nothing passes the filter. *)
Definition entries_faint : list Entry :=
  [mkEntry "a" true (3 # 100) 70 300; mkEntry "b" true (5 # 100) 300 500].

Lemma tick_without_candidate_no_action_witness :
  filter is_candidate (map (process (effectiveActiveLineOffset cfg_two)) entries_faint) = []
  /\ step cfg_two (init cfg_two) (ETick entries_faint) = init cfg_two.
Proof.
  split; [reflexivity|].
  apply tick_without_candidate_no_action. reflexivity.
Defined.

Definition entry_a_visible : Entry := mkEntry "a" true 1 70 400.

Lemma click_suppresses_ticks_witness :
  sectionElement cfg_two "b" = Some 600
  /\ containerMounted cfg_two = true
  /\ (now (run cfg_two (step cfg_two (init cfg_two) (EClick "b"))
            [EWait 100; ETick [entry_a_visible]; EWait 300])
      < now (init cfg_two) + PROGRAMMATIC_SCROLL_SETTLE)%Z
  /\ isProgrammaticScroll (run cfg_two (step cfg_two (init cfg_two) (EClick "b"))
            [EWait 100; ETick [entry_a_visible]; EWait 300]) = true
  /\ step cfg_two (run cfg_two (step cfg_two (init cfg_two) (EClick "b"))
            [EWait 100; ETick [entry_a_visible]; EWait 300]) (ETick [entry_a_visible])
     = run cfg_two (step cfg_two (init cfg_two) (EClick "b"))
            [EWait 100; ETick [entry_a_visible]; EWait 300].
Proof.
  split; [reflexivity|]. split; [reflexivity|]. split; [reflexivity|].
  apply (click_suppresses_ticks cfg_two (init cfg_two) "b" 600); reflexivity.
Defined.

(** Three sections [A], [B], [C]; [A] is active after mounting. *)
Definition cfg_abc : Config :=
  mkConfig [("A"%string, Some 0); ("B"%string, Some 500); ("C"%string, Some 1000)]
    true 60 None DEFAULT_STICKINESS_FACTOR DEFAULT_DEBOUNCE_DELAY "".

(** Emissions [A], [B], [C] 50 ms apart, then 150 ms of quiet: one commit, to [C]. *)
Lemma debounce_commits_last_witness :
  Forall (fun cd => (Z.of_N (snd cd) < Z.max 0 (debounceDelay cfg_abc))%Z)
    [("A"%string, 50%N); ("B"%string, 50%N)]
  /\ (Z.max 0 (debounceDelay cfg_abc) <= Z.of_N 150)%Z
  /\ (let s' := advance (debouncedUpdateActiveTab cfg_abc
                   (emit_all cfg_abc (init cfg_abc) [("A"%string, 50%N); ("B"%string, 50%N)])
                   "C") (Z.of_N 150) in
      debounceTimeout s' = None
      /\ activeTab s' = "C"%string /\ out s' = out (init cfg_abc) ++ [ONotify "C"]).
Proof.
  split; [repeat constructor|]. split; [discriminate|].
  exact (debounce_commits_last cfg_abc (init cfg_abc)
           [("A"%string, 50%N); ("B"%string, 50%N)] "C" 150
           ltac:(repeat constructor) ltac:(discriminate)).
Defined.

(** One section at offsetTop 1000, nav height 65. *)
Definition cfg_nav65 : Config :=
  mkConfig [("s1"%string, Some 1000)] true 65 None DEFAULT_STICKINESS_FACTOR
    DEFAULT_DEBOUNCE_DELAY "".

Lemma click_scroll_target_witness :
  (exists (E : Q) (W N : list Output),
    out (step cfg_nav65 (init cfg_nav65) (EClick "s1"))
      = out (init cfg_nav65) ++ W ++ [OScrollTo (1000 - E)] ++ N
    /\ (N = [] \/ N = [ONotify "s1"%string])
    /\ (forall a, activeLineOffset cfg_nav65 = Some a -> E = a /\ W = [])
    /\ (activeLineOffset cfg_nav65 = None -> ~ navTabsHeight cfg_nav65 == 0 ->
          E = navTabsHeight cfg_nav65 /\ W = [])
    /\ (activeLineOffset cfg_nav65 = None -> navTabsHeight cfg_nav65 == 0 ->
          E = DEFAULT_NAV_HEIGHT /\ W = [OWarn]))
  /\ out (step cfg_nav65 (init cfg_nav65) (EClick "s1"))
     = [ONotify "s1"; OScrollTo 935].
Proof.
  split.
  - apply click_scroll_target; reflexivity.
  - vm_compute. reflexivity.
Defined.

Lemma click_unresolvable_noop_witness :
  (sectionElement cfg_two "zzz" = None \/ containerMounted cfg_two = false)
  /\ step cfg_two (init cfg_two) (EClick "zzz") = init cfg_two.
Proof.
  split; [left; reflexivity|].
  apply click_unresolvable_noop. left. reflexivity.
Defined.

Lemma line_offsets_differ_by_margin_witness :
  activeLineOffset cfg_nav65 = None /\ 0 < navTabsHeight cfg_nav65
  /\ effectiveActiveLineOffset cfg_nav65 = navTabsHeight cfg_nav65 + 5
  /\ fst (clickLineOffset cfg_nav65) = navTabsHeight cfg_nav65.
Proof.
  split; [reflexivity|]. split; [reflexivity|].
  apply line_offsets_differ_by_margin; reflexivity.
Defined.

(** The host re-renders with a new [sections] object that adds [c]. *)
Definition cfg_three : Config :=
  mkConfig [("a"%string, Some 0); ("b"%string, Some 600); ("c"%string, Some 1200)]
    true 60 None DEFAULT_STICKINESS_FACTOR DEFAULT_DEBOUNCE_DELAY "".

Definition host_events_grow : list HostEvent :=
  [HTick [entry_b_visible]; HRender cfg_three true false false; HWait 200;
   HClick "c"; HTick [entry_a_visible]].

Lemma config_ok_three : config_ok cfg_three.
Proof.
  split; [|left; reflexivity].
  intros k Hk; simpl in Hk; destruct Hk as [<-|[<-|[<-|[]]]]; discriminate.
Qed.

Lemma activeTab_registered_witness :
  config_ok cfg_two /\ props_ok cfg_two host_events_grow
  /\ active_ok (hprops (hrun (host_init cfg_two) host_events_grow))
       (activeTab (hsession (hrun (host_init cfg_two) host_events_grow))).
Proof.
  assert (Hc : config_ok cfg_two).
  { split; [|left; reflexivity].
    intros k Hk; simpl in Hk; destruct Hk as [<-|[<-|[]]]; discriminate. }
  assert (Hp : props_ok cfg_two host_events_grow).
  { cbn [props_ok next_props hevent_ok host_events_grow].
    split; [repeat constructor; simpl; tauto|].
    split; [split; [exact config_ok_three|split; [|intros _; reflexivity]]|].
    { intros k Hk; simpl in *; tauto. }
    split; [exact I|]. split; [exact I|].
    split; [repeat constructor; simpl; tauto|exact I]. }
  split; [exact Hc|]. split; [exact Hp|].
  apply activeTab_registered; assumption.
Defined.

(** A section only in the old props. *)
Definition cfg_a_only : Config :=
  mkConfig [("a"%string, Some 0)] true 60 None DEFAULT_STICKINESS_FACTOR
    DEFAULT_DEBOUNCE_DELAY "".

(** Why C7 needs that no re-render removes a key: [b] is scheduled by a
    tick, the host re-renders without [b], the observer cleanup leaves the
    debounce timer pending, and 200 ms later [b] is committed although it
    is no longer registered. *)
Lemma removed_key_committed :
  activeTab (hsession (hrun (host_init cfg_two)
    [HTick [entry_b_visible]; HRender cfg_a_only true false false; HWait 200]))
    = "b"%string
  /\ ~ In "b"%string (sectionKeys cfg_a_only).
Proof.
  split; [reflexivity|]. intros [H|[]]. discriminate.
Qed.

(** * Further properties of the hook *)

(** ** [onActiveTabChange] notifications *)

(** The ids passed to [onActiveTabChange], in call order. *)
Fixpoint notifications (o : list Output) : list string :=
  match o with
  | [] => []
  | ONotify v :: o' => v :: notifications o'
  | _ :: o' => notifications o'
  end.

(** No two consecutive elements are equal. *)
Fixpoint no_repeat (l : list string) : bool :=
  match l with
  | a :: ((b :: _) as t) => negb (String.eqb a b) && no_repeat t
  | _ => true
  end.

Lemma notifications_app o1 o2 :
  notifications (o1 ++ o2) = notifications o1 ++ notifications o2.
Proof.
  induction o1 as [|[] o1 IH]; simpl; rewrite ?IH; reflexivity.
Qed.

Lemma no_repeat_snoc l x v :
  no_repeat (l ++ [x]) = true -> x <> v -> no_repeat (l ++ [x; v]) = true.
Proof.
  intros H Hne. induction l as [|a l IH]; simpl in *.
  - rewrite andb_true_r. apply negb_true_iff, String.eqb_neq, Hne.
  - destruct l as [|b l]; simpl in *.
    + apply andb_true_iff in H as [H1 _]. rewrite H1. simpl.
      rewrite andb_true_r. apply negb_true_iff, String.eqb_neq, Hne.
    + apply andb_true_iff in H as [H1 H2]. rewrite H1. simpl. apply IH, H2.
Qed.

(** The notifications so far end with the current id and never repeat it. *)
Definition notif_ok (s : Session) : Prop :=
  (exists l, notifications (out s) = l ++ [activeTab s])
  /\ no_repeat (notifications (out s)) = true.

Lemma notif_ok_ext s s' :
  activeTab s' = activeTab s -> notifications (out s') = notifications (out s) ->
  notif_ok s -> notif_ok s'.
Proof.
  intros A N [[l Hl] Hr]. split; [exists l|]; rewrite N, ?A; assumption.
Qed.

Lemma notif_ok_setActiveTab s v : notif_ok s -> notif_ok (setActiveTab s v).
Proof.
  intros [[l Hl] Hr]. unfold setActiveTab.
  destruct (String.eqb v (activeTab s)) eqn:E; [split; [exists l|]; assumption|].
  apply String.eqb_neq in E.
  assert (Hn : notifications (out s ++ [ONotify v]) = l ++ [activeTab s; v])
    by (rewrite notifications_app, Hl; simpl; rewrite <- app_assoc; reflexivity).
  unfold notif_ok; cbn [out activeTab]. rewrite Hn. split.
  - exists (l ++ [activeTab s]). rewrite <- app_assoc. reflexivity.
  - apply no_repeat_snoc; [rewrite <- Hl; exact Hr|].
    intro H. apply E. symmetry. exact H.
Qed.

Lemma notif_ok_updateActiveTab s v : notif_ok s -> notif_ok (updateActiveTab s v).
Proof.
  intro H. unfold updateActiveTab. destruct (_ && _); [apply notif_ok_setActiveTab|]; exact H.
Qed.

Lemma clickLineOffset_notif cfg : notifications (snd (clickLineOffset cfg)) = [].
Proof.
  unfold clickLineOffset. destruct (_ && _); destruct (activeLineOffset cfg); reflexivity.
Qed.

Lemma notif_ok_step cfg s e : notif_ok s -> notif_ok (step cfg s e).
Proof.
  intro H. destruct e as [tabId|entries|d|]; cbn [step].
  - unfold handleTabClick.
    destruct (sectionElement cfg tabId); [|exact H].
    destruct (containerMounted cfg); [|exact H].
    apply notif_ok_setActiveTab. revert H. apply notif_ok_ext; [reflexivity|].
    cbn [out set_out set_programmatic]. rewrite !notifications_app, clickLineOffset_notif.
    simpl. apply app_nil_r.
  - destruct (observing s); [|exact H]. unfold observerCallback.
    destruct (isProgrammaticScroll s); [exact H|].
    destruct (resolve _ _ _ _); [|exact H].
    revert H. apply notif_ok_ext; reflexivity.
  - unfold advance.
    assert (H1 : notif_ok (match programmaticScrollTimeout s with
            | Some u => if (u <=? now s + Z.of_N d)%Z then set_programmatic s false None else s
            | None => s end)).
    { destruct (programmaticScrollTimeout s); [destruct (_ <=? _)%Z|]; try exact H;
        revert H; apply notif_ok_ext; reflexivity. }
    revert H1. generalize (match programmaticScrollTimeout s with
            | Some u => if (u <=? now s + Z.of_N d)%Z then set_programmatic s false None else s
            | None => s end). intros s1 H1.
    apply (notif_ok_ext (match debounceTimeout s1 with
            | Some (u, tabId) => if (u <=? now s + Z.of_N d)%Z
                then updateActiveTab (set_debounce s1 None) tabId else s1
            | None => s1 end)); try reflexivity.
    destruct (debounceTimeout s1) as [[u c]|]; [destruct (_ <=? _)%Z|]; try exact H1.
    apply notif_ok_updateActiveTab. revert H1. apply notif_ok_ext; reflexivity.
  - revert H. apply notif_ok_ext; reflexivity.
Qed.

Lemma notif_ok_cleanup s : notif_ok s -> notif_ok (cleanup s).
Proof. apply notif_ok_ext; reflexivity. Qed.

Lemma notif_ok_set_observing s b : notif_ok s -> notif_ok (set_observing s b).
Proof. apply notif_ok_ext; reflexivity. Qed.

Lemma notif_ok_hstep h e :
  (forall p ns no, e <> HRender p ns true no) ->
  notif_ok (hsession h) -> notif_ok (hsession (hstep h e)).
Proof.
  intros He H. unfold hstep. destruct (hmounted h); [|exact H].
  destruct e as [tabId|entries|d|p ns nc no|]; cbn [hsession].
  - exact (notif_ok_step (hprops h) _ (EClick tabId) H).
  - exact (notif_ok_step (hobs h) _ (ETick entries) H).
  - exact (notif_ok_step (hprops h) _ (EWait d) H).
  - destruct nc; [exfalso; apply (He p ns no); reflexivity|].
    unfold render. cbv zeta.
    set (r := ns || negb _). set (o := ns || no || _ || _).
    destruct o, r; cbn [hsession];
      repeat first [ apply notif_ok_set_observing | apply notif_ok_setActiveTab
                   | apply notif_ok_cleanup ]; exact H.
  - apply notif_ok_cleanup, H.
Qed.

(** X1. As long as the host keeps the same [onActiveTabChange] function,
    the callback is never called twice in a row with the same id, and its
    last call reports the current [activeTab], across clicks, ticks, timers,
    re-renders (including resets by the reset effect) and unmounting. *)
Theorem notifications_no_repeat (p0 : Config) (evs : list HostEvent) :
  Forall (fun e => forall p ns no, e <> HRender p ns true no) evs ->
  no_repeat (notifications (out (hsession (hrun (host_init p0) evs)))) = true
  /\ last (notifications (out (hsession (hrun (host_init p0) evs)))) ""%string
     = activeTab (hsession (hrun (host_init p0) evs)).
Proof.
  intro Hevs.
  assert (H : notif_ok (hsession (hrun (host_init p0) evs))).
  { assert (H0 : notif_ok (hsession (host_init p0)))
      by (split; [exists []|]; reflexivity).
    revert H0. generalize (host_init p0).
    induction Hevs as [|e evs He _ IH]; intros h Hh; [exact Hh|].
    apply IH, notif_ok_hstep; assumption. }
  destruct H as [[l Hl] Hr]. split; [exact Hr|]. rewrite Hl. apply last_last.
Qed.

(** ** The settle timer of [handleTabClick] *)

Lemma advance_programmatic s d :
  isProgrammaticScroll (advance s d)
    = match programmaticScrollTimeout s with
      | Some u => if (u <=? now s + d)%Z then false else isProgrammaticScroll s
      | None => isProgrammaticScroll s
      end
  /\ programmaticScrollTimeout (advance s d)
    = match programmaticScrollTimeout s with
      | Some u => if (u <=? now s + d)%Z then None else Some u
      | None => None
      end.
Proof.
  unfold advance.
  destruct (programmaticScrollTimeout s) as [u|] eqn:Et;
    [destruct (u <=? now s + d)%Z|];
  match goal with |- context [debounceTimeout ?x] =>
    destruct (debounceTimeout x) as [[v c]|]; [destruct (v <=? now s + d)%Z|] end;
  cbn [set_now isProgrammaticScroll programmaticScrollTimeout];
  try (match goal with |- context [updateActiveTab ?y ?c'] =>
         destruct (updateActiveTab_fields y c') as [E1 [E2 _]]; rewrite E1, E2 end);
  simpl; rewrite ?Et; split; reflexivity.
Qed.

(** X2. A click on a resolvable section sets [activeTab] to it at once and
    raises the suppression flag; if nothing else happens, the flag is cleared
    exactly when 800 ms have passed. A second click restarts the 800 ms. *)
Theorem click_settle_window (cfg : Config) (s : Session) (tabId : string) (top : Q) (d : Z) :
  sectionElement cfg tabId = Some top ->
  containerMounted cfg = true ->
  (0 <= d)%Z ->
  activeTab (handleTabClick cfg s tabId) = tabId
  /\ isProgrammaticScroll (advance (handleTabClick cfg s tabId) d)
     = (d <? PROGRAMMATIC_SCROLL_SETTLE)%Z.
Proof.
  intros Hs Hc Hd.
  destruct (handleTabClick_resolved cfg s tabId top Hs Hc) as [E1 [E2 [_ [E4 _]]]].
  split.
  - unfold handleTabClick. rewrite Hs, Hc. apply setActiveTab_activeTab.
  - rewrite (proj1 (advance_programmatic _ _)), E1, E2, E4.
    unfold PROGRAMMATIC_SCROLL_SETTLE.
    destruct (Z.ltb_spec d 800); destruct (Z.leb_spec (now s + 800) (now s + d));
      try reflexivity; lia.
Qed.

(** X3. If the effect's cleanup runs while a programmatic scroll is being
    suppressed, the suppression flag is never cleared again by timers, ticks
    or further cleanups: only a new click can reschedule its reset. *)
Theorem cleanup_leaves_suppression_set (cfg : Config) (s : Session) (evs : list Event) :
  isProgrammaticScroll s = true ->
  Forall (fun e => forall tabId, e <> EClick tabId) evs ->
  isProgrammaticScroll (run cfg (step cfg s ETeardown) evs) = true.
Proof.
  intros Hp Hevs.
  assert (Inv : isProgrammaticScroll (step cfg s ETeardown) = true
                /\ programmaticScrollTimeout (step cfg s ETeardown) = None)
    by (split; [exact Hp|reflexivity]).
  revert Inv. generalize (step cfg s ETeardown). clear Hp.
  induction Hevs as [|e evs He _ IH]; intros s1 [H1 H2]; [exact H1|].
  simpl. apply IH.
  destruct e as [tabId|entries|d|]; cbn [step].
  - exfalso. apply (He tabId). reflexivity.
  - destruct (observing s1); [|split; assumption].
    unfold observerCallback. rewrite H1. split; assumption.
  - destruct (advance_programmatic s1 (Z.of_N d)) as [E1 E2].
    rewrite E1, E2, H2. split; [exact H1|reflexivity].
  - split; [exact H1|reflexivity].
Qed.

(** X4. A click does not cancel a debounced update scheduled before it: when
    that timer fires inside the click's settle window, its candidate replaces
    the clicked id while suppression is still on. *)
Theorem click_overridden_by_pending_debounce (cfg : Config) (s : Session)
    (tabId : string) (top : Q) (u : Z) (c : string) (d : Z) :
  sectionElement cfg tabId = Some top ->
  containerMounted cfg = true ->
  debounceTimeout s = Some (u, c) ->
  c <> ""%string -> c <> tabId ->
  (u <= now s + d)%Z -> (d < PROGRAMMATIC_SCROLL_SETTLE)%Z ->
  activeTab (advance (handleTabClick cfg s tabId) d) = c
  /\ isProgrammaticScroll (advance (handleTabClick cfg s tabId) d) = true.
Proof.
  intros Hs Hc Hd Hne Hnt Hu Hlt.
  destruct (handleTabClick_resolved cfg s tabId top Hs Hc) as [E1 [E2 [E3 [E4 _]]]].
  assert (Ea : activeTab (handleTabClick cfg s tabId) = tabId)
    by (unfold handleTabClick; rewrite Hs, Hc; apply setActiveTab_activeTab).
  split.
  - destruct (advance_fires_debounce (handleTabClick cfg s tabId) d u c)
      as [_ [H2 _]]; [rewrite E3; exact Hd|rewrite E4; exact Hu|].
    rewrite H2, Ea.
    apply String.eqb_neq in Hne. apply String.eqb_neq in Hnt. rewrite Hne, Hnt.
    reflexivity.
  - rewrite (proj1 (advance_programmatic _ _)), E1, E2, E4.
    unfold PROGRAMMATIC_SCROLL_SETTLE in *.
    destruct (Z.leb_spec (now s + 800) (now s + d)); [lia|reflexivity].
Qed.

(** X5. A visibility tick never writes [activeTab] or emits anything: at most
    it (re)schedules the debounced update. *)
Theorem tick_never_writes_active (cfg : Config) (s : Session) (entries : list Entry) :
  activeTab (step cfg s (ETick entries)) = activeTab s
  /\ out (step cfg s (ETick entries)) = out s
  /\ isProgrammaticScroll (step cfg s (ETick entries)) = isProgrammaticScroll s
  /\ programmaticScrollTimeout (step cfg s (ETick entries)) = programmaticScrollTimeout s.
Proof.
  cbn [step]. destruct (observing s); [|repeat split].
  unfold observerCallback. destruct (isProgrammaticScroll s) eqn:Ep;
    [|destruct (resolve (effectiveActiveLineOffset cfg) (stickinessFactor cfg)
                  (activeTab s) entries)];
    repeat split; simpl; rewrite ?Ep; reflexivity.
Qed.

Lemma active_nonempty_step cfg s e :
  activeTab s <> ""%string -> e <> EClick "" -> activeTab (step cfg s e) <> ""%string.
Proof.
  intros Ha He.
  destruct e as [tabId|entries|d|]; cbn [step].
  - unfold handleTabClick.
    destruct (sectionElement cfg tabId); [|exact Ha].
    destruct (containerMounted cfg); [|exact Ha].
    rewrite setActiveTab_activeTab. intro H. subst tabId. apply He. reflexivity.
  - destruct (observing s); [|exact Ha]. unfold observerCallback.
    destruct (isProgrammaticScroll s); [exact Ha|].
    destruct (resolve (effectiveActiveLineOffset cfg) (stickinessFactor cfg)
                (activeTab s) entries); exact Ha.
  - unfold advance.
    assert (H1 : activeTab (match programmaticScrollTimeout s with
            | Some u => if (u <=? now s + Z.of_N d)%Z then set_programmatic s false None else s
            | None => s end) = activeTab s)
      by (destruct (programmaticScrollTimeout s); [destruct (_ <=? _)%Z|]; reflexivity).
    revert H1. generalize (match programmaticScrollTimeout s with
            | Some u => if (u <=? now s + Z.of_N d)%Z then set_programmatic s false None else s
            | None => s end). intros s1 H1.
    cbn [set_now activeTab].
    destruct (debounceTimeout s1) as [[u c]|]; [destruct (_ <=? _)%Z|];
      cbn [activeTab]; rewrite ?H1; try exact Ha.
    unfold updateActiveTab. destruct (negb (String.eqb c "") && _) eqn:E.
    + rewrite setActiveTab_activeTab. apply andb_true_iff in E as [E _].
      apply negb_true_iff, String.eqb_neq in E. exact E.
    + simpl. rewrite H1. exact Ha.
  - exact Ha.
Qed.

(** X6. Once [activeTab] is non-empty it stays non-empty, as long as no
    section registered under the empty key is clicked and every props value
    the host renders with gives a non-empty [getInitialActiveTab()] (the
    reset effect writes it): the debounced commit skips empty ids. *)
Theorem active_stays_nonempty (h : Host) (evs : list HostEvent) :
  activeTab (hsession h) <> ""%string ->
  Forall (fun e => match e with
                   | HClick tabId => tabId <> ""%string
                   | HRender p _ _ _ => getInitialActiveTab p <> ""%string
                   | _ => True
                   end) evs ->
  activeTab (hsession (hrun h evs)) <> ""%string.
Proof.
  intros Ha Hevs. revert h Ha.
  induction Hevs as [|e evs He _ IH]; intros h Ha; [exact Ha|].
  simpl. apply IH. unfold hstep. destruct (hmounted h); [|exact Ha].
  destruct e as [tabId|entries|d|p ns nc no|]; cbn [hsession].
  - apply (active_nonempty_step (hprops h) _ (EClick tabId) Ha).
    intro E. injection E as ->. apply He. reflexivity.
  - apply (active_nonempty_step (hobs h) _ (ETick entries) Ha). discriminate.
  - apply (active_nonempty_step (hprops h) _ (EWait d) Ha). discriminate.
  - destruct (render_fields h p ns nc no) as [_ [_ [E _]]]. rewrite E.
    destruct (_ || _); assumption.
  - exact Ha.
Qed.

(** ** The resolver and its ordering *)

Lemma ranked_before_trans line a b c :
  ranked_before line a b -> ranked_before line b c -> ranked_before line a c.
Proof.
  unfold ranked_before. intros H1 H2.
  destruct H1 as [H1|[H1 [H1'|[H1' H1'']]]];
  destruct H2 as [H2|[H2 [H2'|[H2' H2'']]]];
  first [left; lra
        | right; split; [lra|]; first [left; lra | right; split; lra]].
Qed.

Lemma ranked_before_ratio line a b :
  ranked_before line a b -> p_intersectionRatio b <= p_intersectionRatio a.
Proof.
  unfold ranked_before. intros [H|[H _]]; lra.
Qed.

(** X7. Every id the resolver forwards to the dispatcher is the id of a
    report that passed the candidate filter; in particular the current id is
    kept by stickiness only while it is itself a candidate. *)
Theorem resolve_forwards_candidate (line factor : Q) (active : string)
    (entries : list Entry) (c : string) :
  resolve line factor active entries = Some c ->
  exists p, In p (visibleCandidates line entries) /\ p_id p = c.
Proof.
  unfold resolve. destruct (visibleCandidates line entries) as [|top rest] eqn:E.
  - destruct (find _ _); [destruct (_ && _)|]; discriminate.
  - destruct (find (fun vc => String.eqb (p_id vc) active) (top :: rest))
      as [cur|] eqn:Ef.
    + apply find_some in Ef as [Hin Heq]. apply String.eqb_eq in Heq.
      destruct (negb _); [destruct (qltb _ _)|]; intro H; injection H as <-.
      * exists cur. split; assumption.
      * exists top. split; [left|]; reflexivity.
      * exists top. split; [left|]; reflexivity.
    + intro H. injection H as <-. exists top. split; [left|]; reflexivity.
Qed.

(** X8. When the resolver switches away from the current id, it switches to
    the top-ranked candidate, whose intersection ratio is the highest of all
    candidates. *)
Theorem resolve_switch_to_max_ratio (line factor : Q) (active : string)
    (entries : list Entry) (c : string) :
  resolve line factor active entries = Some c ->
  c <> active ->
  exists top rest,
    visibleCandidates line entries = top :: rest /\ p_id top = c
    /\ forall p, In p (visibleCandidates line entries) ->
         p_intersectionRatio p <= p_intersectionRatio top.
Proof.
  intros H Hne.
  pose proof (Sorted_StronglySorted (ranked_before_trans line)
                (visibleCandidates_sorted line entries)) as Hs.
  revert H Hs. unfold resolve.
  destruct (visibleCandidates line entries) as [|top rest] eqn:E.
  - destruct (find _ _); [destruct (_ && _)|]; discriminate.
  - intros H Hs. exists top, rest. split; [reflexivity|]. split.
    + destruct (find _ _) as [cur|];
        [destruct (negb _); [destruct (qltb _ _)|]|]; injection H as <-;
        [contradiction|reflexivity..].
    + inversion Hs as [|x l Hsr Hall]; subst.
      intros p [<-|Hp]; [apply Qle_refl|].
      rewrite Forall_forall in Hall. apply (ranked_before_ratio line), Hall, Hp.
Qed.

(** X9. The comparator passed to [sort] is consistent, as [Array.prototype.sort]
    requires: [cmp a b = -cmp b a], and "not after" is transitive. *)
Theorem compare_candidates_consistent (line : Q) (a b c : Processed) :
  compare_candidates line a b == - compare_candidates line b a
  /\ (compare_candidates line a b <= 0 -> compare_candidates line b c <= 0 ->
      compare_candidates line a c <= 0).
Proof.
  unfold compare_candidates. split.
  - destruct (qneqb (p_intersectionRatio b) (p_intersectionRatio a)) eqn:E1;
    destruct (qneqb (p_intersectionRatio a) (p_intersectionRatio b)) eqn:E2;
    destruct (qneqb (p_visibleHeightBelowActiveLine b) (p_visibleHeightBelowActiveLine a)) eqn:E3;
    destruct (qneqb (p_visibleHeightBelowActiveLine a) (p_visibleHeightBelowActiveLine b)) eqn:E4;
    qbool; try lra; exfalso;
    first [apply E1; lra | apply E2; lra | apply E3; lra | apply E4; lra].
  - destruct (qneqb (p_intersectionRatio b) (p_intersectionRatio a)) eqn:E1;
    destruct (qneqb (p_intersectionRatio c) (p_intersectionRatio b)) eqn:E2;
    destruct (qneqb (p_intersectionRatio c) (p_intersectionRatio a)) eqn:E3;
    destruct (qneqb (p_visibleHeightBelowActiveLine b) (p_visibleHeightBelowActiveLine a)) eqn:E4;
    destruct (qneqb (p_visibleHeightBelowActiveLine c) (p_visibleHeightBelowActiveLine b)) eqn:E5;
    destruct (qneqb (p_visibleHeightBelowActiveLine c) (p_visibleHeightBelowActiveLine a)) eqn:E6;
    qbool; intros H1 H2; try lra;
    exfalso; first [apply E1; lra | apply E2; lra | apply E3; lra
                   | apply E4; lra | apply E5; lra | apply E6; lra].
Qed.

(** ** Set-up of the IntersectionObserver effect *)








(** ** The two timers *)

Lemma advance_debounce s d :
  debounceTimeout (advance s d)
    = match debounceTimeout s with
      | Some (u, c) => if (u <=? now s + d)%Z then None else Some (u, c)
      | None => None
      end
  /\ now (advance s d) = (now s + d)%Z.
Proof.
  unfold advance.
  destruct (programmaticScrollTimeout s) as [u|]; [destruct (u <=? now s + d)%Z|];
  cbn [set_programmatic debounceTimeout now];
  (destruct (debounceTimeout s) as [[v c]|] eqn:Ed; [destruct (v <=? now s + d)%Z|]);
  cbn [set_now debounceTimeout now];
  try (match goal with |- context [updateActiveTab ?y ?c'] =>
         destruct (updateActiveTab_fields y c') as [_ [_ [E3 _]]]; rewrite E3 end);
  simpl; rewrite ?Ed; split; reflexivity.
Qed.

(** Pending timers: the reset of the suppression flag is due within the
    settle time and only while the flag is up; the debounced update is due
    within the debounce delay. *)
Definition timers_ok (cfg : Config) (s : Session) : Prop :=
  (forall u, programmaticScrollTimeout s = Some u ->
     isProgrammaticScroll s = true
     /\ (now s < u <= now s + PROGRAMMATIC_SCROLL_SETTLE)%Z)
  /\ (forall u c, debounceTimeout s = Some (u, c) ->
       (now s <= u <= now s + Z.max 0 (debounceDelay cfg))%Z).

Lemma timers_ok_step cfg s e : timers_ok cfg s -> timers_ok cfg (step cfg s e).
Proof.
  unfold PROGRAMMATIC_SCROLL_SETTLE in *.
  intros [Hp Hd]. destruct e as [tabId|entries|d|]; cbn [step].
  - destruct (sectionElement cfg tabId) as [top|] eqn:Hs;
      [|unfold handleTabClick; rewrite Hs; split; assumption].
    destruct (containerMounted cfg) eqn:Hc;
      [|unfold handleTabClick; rewrite Hs, Hc; split; assumption].
    destruct (handleTabClick_resolved cfg s tabId top Hs Hc) as [E1 [E2 [E3 [E4 _]]]].
    split.
    + intros u Hu. rewrite E2 in Hu. injection Hu as <-. rewrite E1, E4.
      unfold PROGRAMMATIC_SCROLL_SETTLE. split; [reflexivity|lia].
    + intros u c Hu. rewrite E3 in Hu. rewrite E4. exact (Hd u c Hu).
  - destruct (observing s); [|split; assumption]. unfold observerCallback.
    case_eq (isProgrammaticScroll s); intros _; [split; assumption|].
    destruct (resolve (effectiveActiveLineOffset cfg) (stickinessFactor cfg)
                (activeTab s) entries) as [c|]; [|split; assumption].
    split; [exact Hp|]. cbn. intros u c' Hu.
    unfold debounce_call in Hu. destruct (debounceTimeout s);
      injection Hu as <- _; lia.
  - destruct (advance_programmatic s (Z.of_N d)) as [E1 E2].
    destruct (advance_debounce s (Z.of_N d)) as [E3 E4].
    split.
    + intros u Hu. rewrite E2 in Hu. rewrite E1, E4.
      destruct (programmaticScrollTimeout s) as [u'|]; [|discriminate].
      destruct (Z.leb_spec u' (now s + Z.of_N d)); [discriminate|].
      injection Hu as <-. destruct (Hp u' eq_refl) as [Hf Hb].
      split; [exact Hf|lia].
    + intros u c Hu. rewrite E3 in Hu. rewrite E4.
      destruct (debounceTimeout s) as [[u' c']|]; [|discriminate].
      destruct (Z.leb_spec u' (now s + Z.of_N d)); [discriminate|].
      injection Hu as <- <-. specialize (Hd u' c' eq_refl). lia.
  - split; [intros u Hu; discriminate|exact Hd].
Qed.

(** X13. In every reachable state a pending reset of the suppression flag
    implies the flag is up and is due within the next 800 ms, and a pending
    debounced update is due within [max 0 debounceDelay] ms. *)
Theorem timers_bounded (cfg : Config) (evs : list Event) :
  timers_ok cfg (run cfg (init cfg) evs).
Proof.
  assert (H0 : timers_ok cfg (init cfg))
    by (split; [intros u Hu|intros u c Hu]; discriminate).
  revert H0. generalize (init cfg).
  induction evs as [|e evs IH]; intros s Hs; [exact Hs|].
  apply IH, timers_ok_step, Hs.
Qed.

(** ** Instances of the further properties *)

Lemma click_settle_window_witness :
  sectionElement cfg_two "b" = Some 600 /\ containerMounted cfg_two = true
  /\ activeTab (handleTabClick cfg_two (init cfg_two) "b") = "b"%string
  /\ isProgrammaticScroll (advance (handleTabClick cfg_two (init cfg_two) "b") 300)
     = (300 <? PROGRAMMATIC_SCROLL_SETTLE)%Z.
Proof.
  split; [reflexivity|]. split; [reflexivity|].
  apply (click_settle_window cfg_two (init cfg_two) "b" 600 300);
    [reflexivity|reflexivity|lia].
Defined.

Lemma cleanup_leaves_suppression_set_witness :
  isProgrammaticScroll (step cfg_two (init cfg_two) (EClick "b")) = true
  /\ isProgrammaticScroll
       (run cfg_two (step cfg_two (step cfg_two (init cfg_two) (EClick "b")) ETeardown)
          [EWait 1000; ETick [entry_a_visible]; ETeardown]) = true.
Proof.
  split; [reflexivity|].
  apply cleanup_leaves_suppression_set; [reflexivity|].
  repeat apply Forall_cons; try apply Forall_nil; intros t H; discriminate.
Defined.

(** [b] is pending from a tick when [a] is clicked; 200 ms later [b] wins. *)
Lemma click_overridden_by_pending_debounce_witness :
  debounceTimeout (step cfg_two (init cfg_two) (ETick [entry_b_visible]))
    = Some (150%Z, "b"%string)
  /\ activeTab (advance (handleTabClick cfg_two
                  (step cfg_two (init cfg_two) (ETick [entry_b_visible])) "a") 200)
     = "b"%string
  /\ isProgrammaticScroll (advance (handleTabClick cfg_two
                  (step cfg_two (init cfg_two) (ETick [entry_b_visible])) "a") 200)
     = true.
Proof.
  split; [reflexivity|].
  apply (click_overridden_by_pending_debounce cfg_two
           (step cfg_two (init cfg_two) (ETick [entry_b_visible])) "a" 0 150 "b" 200);
    try reflexivity; try discriminate; unfold PROGRAMMATIC_SCROLL_SETTLE;
    cbn; lia.
Defined.

(** Ticks, timers, a re-render with a new [sections] object (the reset
    effect re-runs) and a click, all with the same callback. *)
Definition host_events_mixed : list HostEvent :=
  [HTick [entry_b_visible]; HWait 200; HRender cfg_three true false false; HClick "c";
   HWait 1000; HUnmount].

Lemma notifications_no_repeat_witness :
  Forall (fun e => forall p ns no, e <> HRender p ns true no) host_events_mixed
  /\ no_repeat (notifications (out (hsession (hrun (host_init cfg_two) host_events_mixed))))
     = true
  /\ last (notifications (out (hsession (hrun (host_init cfg_two) host_events_mixed)))) ""%string
     = activeTab (hsession (hrun (host_init cfg_two) host_events_mixed)).
Proof.
  assert (H : Forall (fun e => forall p ns no, e <> HRender p ns true no) host_events_mixed)
    by (repeat apply Forall_cons; try apply Forall_nil; intros p ns no E; discriminate).
  split; [exact H|]. apply notifications_no_repeat, H.
Defined.

Lemma active_stays_nonempty_witness :
  activeTab (hsession (host_init cfg_two)) = "a"%string
  /\ activeTab (hsession (hrun (host_init cfg_two) host_events_mixed)) <> ""%string.
Proof.
  split; [reflexivity|].
  apply active_stays_nonempty; [discriminate|].
  repeat apply Forall_cons; try apply Forall_nil; cbn; try exact I; discriminate.
Defined.

Lemma resolve_forwards_candidate_witness :
  resolve 65 (6 # 5) "A" [entry_A (50 # 100); entry_B (65 # 100)] = Some "B"%string
  /\ exists p, In p (visibleCandidates 65 [entry_A (50 # 100); entry_B (65 # 100)])
               /\ p_id p = "B"%string.
Proof.
  split; [reflexivity|].
  apply (resolve_forwards_candidate 65 (6 # 5) "A"). reflexivity.
Defined.

Lemma resolve_switch_to_max_ratio_witness :
  resolve 65 (6 # 5) "A" [entry_A (50 # 100); entry_B (65 # 100)] = Some "B"%string
  /\ exists top rest,
       visibleCandidates 65 [entry_A (50 # 100); entry_B (65 # 100)] = top :: rest
       /\ p_id top = "B"%string
       /\ forall p, In p (visibleCandidates 65 [entry_A (50 # 100); entry_B (65 # 100)]) ->
            p_intersectionRatio p <= p_intersectionRatio top.
Proof.
  split; [reflexivity|].
  apply (resolve_switch_to_max_ratio 65 (6 # 5) "A"); [reflexivity|discriminate].
Defined.




